(** * Plan / reflect / act agents: a shallow embedding and its properties

    The development follows the three Python sources of the handbook:

    - [tool_use/src/main.py]   the tool-using [Agent] (registry, planner,
      executor);
    - [tool_use/src/tools.py]  the example tool [convert_currency];
    - [planning/reflection/src/main.py]  the reflecting [Agent] (planner,
      reflector, executor with one revision round).

    Values that come back from [json.loads] are dynamically typed, so the
    embedding works over a universe [pyval] of JSON-shaped Python values and
    spells out what each dynamic operation does on every shape, including
    the exception it raises.  Effects (requests to the language model, the
    HTTP request of the currency tool, the clock, the agent's working
    memory) are threaded through a state-and-exception monad; the outside
    world answers through oracles that see the whole history of events. *)

From Stdlib Require Import String Ascii List ZArith Bool Lia.
From Stdlib Require Import Floats.SpecFloat.
From Stdlib Require Import DecimalString.
Import ListNotations.

Open Scope list_scope.
Open Scope string_scope.

(** ** Python dictionaries

    A [dict] keeps insertion order and has unique keys: an association list
    whose update overwrites in place and appends new keys at the end. *)

Section Dict.
Context {V : Type}.

Fixpoint dict_get (k : string) (d : list (string * V)) : option V :=
  match d with
  | [] => None
  | (k', v) :: rest => if String.eqb k k' then Some v else dict_get k rest
  end.

Fixpoint dict_set (k : string) (v : V) (d : list (string * V))
  : list (string * V) :=
  match d with
  | [] => [(k, v)]
  | (k', v') :: rest =>
      if String.eqb k k' then (k', v) :: rest
      else (k', v') :: dict_set k v rest
  end.

Definition dict_keys (d : list (string * V)) : list string := map fst d.

Definition dict_values (d : list (string * V)) : list V := map snd d.

Definition dict_mem (k : string) (d : list (string * V)) : bool :=
  match dict_get k d with Some _ => true | None => false end.
End Dict.

(** ** Strings *)

Definition nl : string := String (ascii_of_nat 10) EmptyString.

(** [sub in s] on Python strings. *)
Fixpoint has_substring (sub s : string) : bool :=
  if String.prefix sub s then true
  else match s with
       | EmptyString => false
       | String _ rest => has_substring sub rest
       end.

(** The propositional reading used in statements: [sub] occurs in [s]. *)
Definition occurs_in (sub s : string) : Prop :=
  exists pre post, s = pre ++ sub ++ post.

(** [s] begins with [p]. *)
Definition starts_with (p s : string) : Prop :=
  exists rest, s = p ++ rest.

Definition is_ascii_char (c : ascii) : bool := Nat.ltb (nat_of_ascii c) 128.

Definition upper_char (c : ascii) : ascii :=
  let n := nat_of_ascii c in
  if andb (Nat.leb 97 n) (Nat.leb n 122) then ascii_of_nat (n - 32) else c.

Fixpoint all_chars (p : ascii -> bool) (s : string) : bool :=
  match s with
  | EmptyString => true
  | String c rest => andb (p c) (all_chars p rest)
  end.

Fixpoint map_chars (f : ascii -> ascii) (s : string) : string :=
  match s with
  | EmptyString => EmptyString
  | String c rest => String (f c) (map_chars f rest)
  end.

Fixpoint repeat_string (s : string) (n : nat) : string :=
  match n with
  | O => EmptyString
  | S n' => s ++ repeat_string s n'
  end.

(** Decimal rendering of an integer, as [str(int)] does. *)
Definition Z_to_string (z : Z) : string :=
  NilZero.string_of_int (Z.to_int z).

(** ** Binary64 floats

    Python's [float] is IEEE 754 binary64; [spec_float] at precision 53 and
    maximal exponent 1024 is exactly that format, with one NaN. *)

Definition pyfloat : Type := spec_float.

Definition float_mul : pyfloat -> pyfloat -> pyfloat := SFmul 53 1024.
Definition float_div : pyfloat -> pyfloat -> pyfloat := SFdiv 53 1024.

(** The nearest binary64 to an integer (ties to even); an integer beyond
    the range rounds to infinity. *)
Definition float_of_Z (z : Z) : pyfloat := binary_normalize 53 1024 z 0 false.

Definition float_sign (s : bool) : string := if s then "-" else EmptyString.

(** Nearest integer to [n / d] for [0 <= n] and [0 < d], ties to even. *)
Definition round_half_even (n d : Z) : Z :=
  let q := (n / d)%Z in
  let r := (n mod d)%Z in
  if (2 * r <? d)%Z then q
  else if (d <? 2 * r)%Z then (q + 1)%Z
  else if Z.even q then q else (q + 1)%Z.

(** The magnitude [m * 2^e] in hundredths, correctly rounded. *)
Definition hundredths (m : positive) (e : Z) : Z :=
  if (0 <=? e)%Z then (Zpos m * 2 ^ e * 100)%Z
  else round_half_even (Zpos m * 100) (2 ^ (- e)).

Definition two_digits (z : Z) : string :=
  if (z <? 10)%Z then "0" ++ Z_to_string z else Z_to_string z.

(** [format(f, '.2f')] on a float: the exact binary value rounded to two
    decimals, ties to even; infinities and NaN print by name. *)
Definition format_2f (f : pyfloat) : string :=
  match f with
  | S754_nan => "nan"
  | S754_infinity s => float_sign s ++ "inf"
  | S754_zero s => float_sign s ++ "0.00"
  | S754_finite s m e =>
      let h := hundredths m e in
      float_sign s ++ Z_to_string (h / 100) ++ "." ++ two_digits (h mod 100)
  end.

Definition is_finite (f : pyfloat) : bool :=
  match f with
  | S754_zero _ | S754_finite _ _ _ => true
  | _ => false
  end.

(** ** JSON-shaped Python values *)

#[warnings="-register-all"] Inductive pyval : Type :=
| PyNone
| PyBool (b : bool)
| PyInt (z : Z)
| PyFloat (f : pyfloat)
| PyStr (s : string)
| PyList (l : list pyval)
| PyDict (d : list (string * pyval)).

Definition type_name (v : pyval) : string :=
  match v with
  | PyNone => "NoneType"
  | PyBool _ => "bool"
  | PyInt _ => "int"
  | PyFloat _ => "float"
  | PyStr _ => "str"
  | PyList _ => "list"
  | PyDict _ => "dict"
  end.

(** Truth value testing ([if v], [not v]). *)
Definition truthy (v : pyval) : bool :=
  match v with
  | PyNone => false
  | PyBool b => b
  | PyInt z => negb (Z.eqb z 0)
  | PyFloat (S754_zero _) => false
  | PyFloat _ => true
  | PyStr s => negb (String.eqb s EmptyString)
  | PyList [] => false
  | PyList _ => true
  | PyDict [] => false
  | PyDict _ => true
  end.

(** ** Exceptions

    [exn] stands for the instances of Python's [Exception]: what an
    [except Exception] clause handles.  [Fault]s are raised by the
    interpreter itself when a dynamic operation is applied to a value of
    the wrong shape; [External] errors come out of library code (the model
    client, [urllib], a tool's body). *)

Inductive fault : Type :=
| NoAttribute (ty attr : string)        (* AttributeError *)
| NotIterable (ty : string)             (* TypeError: for / join *)
| NotContainer (ty : string)            (* TypeError: [in] *)
| NotSubscriptable (ty : string)        (* TypeError: v[k] *)
| BadIndex (ty : string)                (* TypeError: list or str indexed by a str *)
| MissingKey (k : string)               (* KeyError *)
| Unhashable (ty : string)              (* TypeError: dict lookup *)
| BadOperands (ty1 ty2 : string)        (* TypeError: [*] *)
| BadFormat (ty : string)               (* ValueError / TypeError: [:.2f] *)
| IntTooLarge                           (* OverflowError: int to float *)
| NotMapping (ty : string)              (* TypeError: [**v] *)
| BadKeywords (callee : string)         (* TypeError: argument binding *)
| JoinItem (ty : string)                (* TypeError: non-str item in join *)
| EmptySequence.                        (* IndexError: [l[-1]] *)

Inductive exn : Type :=
| ValueError (msg : string)
| JSONDecodeError (msg : string)
| Fault (f : fault)
| External (cls msg : string).

(** ** The Python runtime

    What the interpreter and the [json] module do and the sources rely on
    without defining: decoding and encoding JSON, [repr] of floats and
    containers, upper-casing beyond ASCII, and the text of the interpreter's
    own error messages. *)

Class PyRuntime : Type := {
  (** [json.loads]: [inl msg] is a [JSONDecodeError]. *)
  json_loads : string -> string + pyval;
  (** [json.dumps(v, indent=i)]. *)
  json_dumps : option nat -> pyval -> string;
  (** [repr(v)]. *)
  py_repr : pyval -> string;
  (** [str.upper] on text with characters outside ASCII. *)
  unicode_upper : string -> string;
  (** [str(e)] for an exception raised by the interpreter. *)
  fault_text : fault -> string
}.

Section Dynamic.
Context {RT : PyRuntime}.

(** [str(v)], which is what an f-string field [{v}] renders. *)
Definition py_str (v : pyval) : string :=
  match v with
  | PyStr s => s
  | PyNone => "None"
  | PyBool true => "True"
  | PyBool false => "False"
  | PyInt z => Z_to_string z
  | _ => py_repr v
  end.

(** [str(e)]. *)
Definition str_exn (e : exn) : string :=
  match e with
  | ValueError msg => msg
  | JSONDecodeError msg => msg
  | Fault f => fault_text f
  | External _ msg => msg
  end.

(** [s.upper()]. *)
Definition str_upper (s : string) : string :=
  if all_chars is_ascii_char s then map_chars upper_char s
  else unicode_upper s.

(** [v.upper()]: only [str] has the method. *)
Definition py_upper (v : pyval) : exn + string :=
  match v with
  | PyStr s => inr (str_upper s)
  | _ => inl (Fault (NoAttribute (type_name v) "upper"))
  end.

(** The bound method [v.get]: only [dict] has it. *)
Definition py_get_method (v : pyval) : exn + (string -> pyval -> pyval) :=
  match v with
  | PyDict d =>
      inr (fun k default =>
             match dict_get k d with Some x => x | None => default end)
  | _ => inl (Fault (NoAttribute (type_name v) "get"))
  end.

(** [v.get(k, default)]. *)
Definition py_get (v : pyval) (k : string) (default : pyval) : exn + pyval :=
  match py_get_method v with
  | inr get => inr (get k default)
  | inl e => inl e
  end.

(** [v[k]] for a string key [k]. *)
Definition py_getitem (v : pyval) (k : string) : exn + pyval :=
  match v with
  | PyDict d =>
      match dict_get k d with
      | Some x => inr x
      | None => inl (Fault (MissingKey k))
      end
  | PyList _ | PyStr _ => inl (Fault (BadIndex (type_name v)))
  | _ => inl (Fault (NotSubscriptable (type_name v)))
  end.

Definition is_str (k : string) (v : pyval) : bool :=
  match v with
  | PyStr s => String.eqb k s
  | _ => false
  end.

(** [k in v] for a string [k]. *)
Definition py_contains (k : string) (v : pyval) : exn + bool :=
  match v with
  | PyDict d => inr (dict_mem k d)
  | PyList l => inr (existsb (is_str k) l)
  | PyStr s => inr (has_substring k s)
  | _ => inl (Fault (NotContainer (type_name v)))
  end.

(** The items a [for] loop or [join] draws from [v]. *)
Definition py_iter (v : pyval) : exn + list pyval :=
  match v with
  | PyList l => inr l
  | PyDict d => inr (map PyStr (dict_keys d))
  | PyStr s =>
      inr (map (fun c => PyStr (String c EmptyString)) (list_ascii_of_string s))
  | _ => inl (Fault (NotIterable (type_name v)))
  end.

Fixpoint expect_strs (items : list pyval) : exn + list string :=
  match items with
  | [] => inr []
  | PyStr s :: rest =>
      match expect_strs rest with
      | inr ss => inr (s :: ss)
      | inl e => inl e
      end
  | v :: _ => inl (Fault (JoinItem (type_name v)))
  end.

(** [sep.join(v)]. *)
Definition py_join (sep : string) (v : pyval) : exn + string :=
  match py_iter v with
  | inl e => inl e
  | inr items =>
      match expect_strs items with
      | inl e => inl e
      | inr ss => inr (String.concat sep ss)
      end
  end.

(** [**v] at a call site: [v] must be a mapping. *)
Definition py_kwargs (v : pyval) : exn + list (string * pyval) :=
  match v with
  | PyDict d => inr d
  | _ => inl (Fault (NotMapping (type_name v)))
  end.

(** [float(z)]: an integer too large for a float is an [OverflowError]. *)
Definition int_to_float (z : Z) : exn + pyfloat :=
  match float_of_Z z with
  | S754_infinity _ => inl (Fault IntTooLarge)
  | f => inr f
  end.

(** [bool] is a subclass of [int]. *)
Definition as_int (v : pyval) : option Z :=
  match v with
  | PyBool b => Some (Z.b2z b)
  | PyInt z => Some z
  | _ => None
  end.

Definition repeat_count (n : Z) : nat := Z.to_nat n.

Definition repeat_list (l : list pyval) (n : nat) : list pyval :=
  concat (repeat l n).

(** [a * b]: numbers multiply (an [int] meeting a [float] is converted
    first), a [str] or [list] times an [int] repeats, anything else is a
    [TypeError]. *)
Definition py_mul (a b : pyval) : exn + pyval :=
  match as_int a, as_int b with
  | Some x, Some y => inr (PyInt (x * y))
  | Some x, None =>
      match b with
      | PyFloat g =>
          match int_to_float x with
          | inr f => inr (PyFloat (float_mul f g))
          | inl e => inl e
          end
      | PyStr s => inr (PyStr (repeat_string s (repeat_count x)))
      | PyList l => inr (PyList (repeat_list l (repeat_count x)))
      | _ => inl (Fault (BadOperands (type_name a) (type_name b)))
      end
  | None, Some y =>
      match a with
      | PyFloat f =>
          match int_to_float y with
          | inr g => inr (PyFloat (float_mul f g))
          | inl e => inl e
          end
      | PyStr s => inr (PyStr (repeat_string s (repeat_count y)))
      | PyList l => inr (PyList (repeat_list l (repeat_count y)))
      | _ => inl (Fault (BadOperands (type_name a) (type_name b)))
      end
  | None, None =>
      match a, b with
      | PyFloat f, PyFloat g => inr (PyFloat (float_mul f g))
      | _, _ => inl (Fault (BadOperands (type_name a) (type_name b)))
      end
  end.

(** [format(v, '.2f')]: floats directly, integers through [float(v)],
    nothing else accepts the format. *)
Definition py_format_2f (v : pyval) : exn + string :=
  match v with
  | PyFloat f => inr (format_2f f)
  | PyInt _ | PyBool _ =>
      match as_int v with
      | Some z =>
          match int_to_float z with
          | inr f => inr (format_2f f)
          | inl e => inl e
          end
      | None => inl (Fault (BadFormat (type_name v)))
      end
  | _ => inl (Fault (BadFormat (type_name v)))
  end.
End Dynamic.

(** ** Effects

    Everything the agents do to the outside world is an [event]; the
    history of events is the world's state.  The language model, the HTTP
    endpoint and the clock are oracles that answer from the history so far,
    so a statement quantified over [World] covers every behaviour of the
    collaborators, failures included. *)

Record message : Type := Message { role : string; content : string }.

Record chat_request : Type := ChatRequest {
  model : string;
  messages : list message;
  temperature : Z
}.

Inductive event : Type :=
| EvChat (req : chat_request)                          (* a model request *)
| EvUrlOpen (url : string)                             (* an HTTP GET *)
| EvTool (tool : string) (kwargs : list (string * pyval)). (* a tool invoked *)

Definition trace : Type := list event.

Class World : Type := {
  (** [client.chat.completions.create(...)] followed by
      [response.choices[0].message.content]. *)
  llm : trace -> chat_request -> exn + string;
  (** [urllib.request.urlopen(url)] followed by [response.read()]. *)
  urlopen_read : trace -> string -> exn + string;
  (** [datetime.now()]. *)
  now : trace -> Z
}.

(** A computation over a state [S] that returns an [A] or raises. *)
Definition M (S A : Type) : Type := S -> (exn + A) * S.

Definition ret {S A : Type} (a : A) : M S A := fun s => (inr a, s).

Definition raise {S A : Type} (e : exn) : M S A := fun s => (inl e, s).

Definition bind {S A B : Type} (m : M S A) (k : A -> M S B) : M S B :=
  fun s =>
    match m s with
    | (inr a, s') => k a s'
    | (inl e, s') => (inl e, s')
    end.

(** The result of a pure dynamic operation, raised if it failed. *)
Definition lift {S A : Type} (r : exn + A) : M S A := fun s => (r, s).

(** [try: m except Exception as e: h e]. *)
Definition try_except {S A : Type} (m : M S A) (h : exn -> M S A) : M S A :=
  fun s =>
    match m s with
    | (inr a, s') => (inr a, s')
    | (inl e, s') => h e s'
    end.

Declare Scope py_scope.
Delimit Scope py_scope with py.
Notation "x <- m ;; k" := (bind m (fun x => k))
  (at level 61, m at next level, right associativity) : py_scope.
Notation "m ;;; k" := (bind m (fun _ => k))
  (at level 61, right associativity) : py_scope.
Open Scope py_scope.

Section Operations.
Context {W : World}.

Definition emit (ev : event) : M trace unit :=
  fun tr => (inr tt, tr ++ [ev])%list.

(** One request to the language model; the reply is its text. *)
Definition chat_completion (req : chat_request) : M trace string :=
  fun tr => (llm tr req, tr ++ [EvChat req])%list.

(** One HTTP GET; the reply is the body. *)
Definition http_get (url : string) : M trace string :=
  fun tr => (urlopen_read tr url, tr ++ [EvUrlOpen url])%list.
End Operations.

(** ** The response schema and worked examples of the system prompt

    Both agents embed the same literal under ["response_format"]. *)

Definition strs (l : list string) : pyval := PyList (map PyStr l).

Definition schema_field (ty descr : string) (extra : list (string * pyval))
  : pyval :=
  PyDict ([("type", PyStr ty); ("description", PyStr descr)] ++ extra)%list.

Definition example_conversion (query thought step : string) (amount : Z)
  (from_code to_code : string) : pyval :=
  PyDict
    [("query", PyStr query);
     ("response",
       PyDict
         [("requires_tools", PyBool true);
          ("thought", PyStr thought);
          ("plan", strs [step; "Return the conversion result"]);
          ("tool_calls",
            PyList
              [PyDict
                 [("tool", PyStr "convert_currency");
                  ("args",
                    PyDict
                      [("amount", PyInt amount);
                       ("from_currency", PyStr from_code);
                       ("to_currency", PyStr to_code)])]])])].

Definition response_format : pyval :=
  PyDict
    [("type", PyStr "json");
     ("schema",
       PyDict
         [("requires_tools",
            schema_field "boolean" "whether tools are needed for this query" []);
          ("direct_response",
            schema_field "string" "response when no tools are needed"
              [("optional", PyBool true)]);
          ("thought",
            PyDict
              [("type", PyStr "string");
               ("description",
                 PyStr "reasoning about how to solve the task (when tools are needed)");
               ("optional", PyBool true)]);
          ("plan",
            PyDict
              [("type", PyStr "array");
               ("items", PyDict [("type", PyStr "string")]);
               ("description",
                 PyStr "steps to solve the task (when tools are needed)");
               ("optional", PyBool true)]);
          ("tool_calls",
            PyDict
              [("type", PyStr "array");
               ("items",
                 PyDict
                   [("type", PyStr "object");
                    ("properties",
                      PyDict
                        [("tool", schema_field "string" "name of the tool" []);
                         ("args",
                           schema_field "object" "parameters for the tool" [])])]);
               ("description",
                 PyStr "tools to call in sequence (when tools are needed)");
               ("optional", PyBool true)])]);
     ("examples",
       PyList
         [example_conversion "Convert 100 USD to EUR"
            "I need to use the currency conversion tool to convert USD to EUR"
            "Use convert_currency tool to convert 100 USD to EUR"
            100 "USD" "EUR";
          example_conversion "What's 500 Japanese Yen in British Pounds?"
            "I need to convert JPY to GBP using the currency converter"
            "Use convert_currency tool to convert 500 JPY to GBP"
            500 "JPY" "GBP";
          PyDict
            [("query", PyStr "What currency does Japan use?");
             ("response",
               PyDict
                 [("requires_tools", PyBool false);
                  ("direct_response",
                    PyStr "Japan uses the Japanese Yen (JPY) as its official currency. This is common knowledge that doesn't require using the currency conversion tool.")])]])].

Section Prompt.
Context {RT : PyRuntime}.

(** The f-string around [json.dumps(tools_json, indent=2)]. *)
Definition render_system_prompt (tools_json : pyval) : string :=
  "You are an AI assistant that helps users by providing direct answers or using tools when necessary."
  ++ nl ++
  "Configuration, instructions, and available tools are provided in JSON format below:"
  ++ nl ++ nl ++
  json_dumps (Some 2%nat) tools_json
  ++ nl ++ nl ++
  "Always respond with a JSON object following the response_format schema above. "
  ++ nl ++
  "Remember to use tools only when they are actually needed for the task.".
End Prompt.

(** ** The tool-using agent ([tool_use/src/main.py], [tool_use/src/tools.py]) *)

Module ToolUse.

Record param_info : Type := ParamInfo {
  param_type : string;
  param_description : string
}.

(** Modelled from the spec: the [Tool] class of the [tool_registry]
    module, which the sources import and which is not among them.  A
    tool has a unique name, a description, a parameter schema (parameter
    name to declared type and description) and an invocable
    implementation, which receives keyword arguments and returns a string
    ([-> str]) or raises, with whatever effects it has on the world. *)
Record Tool : Type := MkTool {
  name : string;
  description : string;
  parameters : list (string * param_info);
  func : list (string * pyval) -> M trace string
}.

(** The agent's registry, [self.tools]. *)
Record Agent : Type := MkAgent { tools : list (string * Tool) }.

(** [Agent()] *)
Definition new_agent : Agent := {| tools := [] |}.

(** [add_tool] *)
Definition add_tool (self : Agent) (tool : Tool) : Agent :=
  {| tools := dict_set (name tool) tool (tools self) |}.

(** The registry after registering [ts] in order on top of [self], the
    way [main] sets an agent up. *)
Definition register_all (ts : list Tool) (self : Agent) : Agent :=
  fold_left add_tool ts self.

(** [get_available_tools] *)
Definition get_available_tools (self : Agent) : list string :=
  map (fun tool => name tool ++ ": " ++ description tool)
      (dict_values (tools self)).

Section WithRuntime.
Context {RT : PyRuntime} {W : World}.

Definition tool_not_found (self : Agent) (tool_name : pyval) : exn :=
  ValueError
    ("Tool '" ++ py_str tool_name ++ "' not found. Available tools: "
     ++ py_repr (strs (dict_keys (tools self)))).

(** [use_tool(self, tool_name, **kwargs)].  The registry is keyed by
    strings, so a hashable name of another type is simply absent and an
    unhashable one fails the membership test.  The invocation of the
    implementation is recorded in the history. *)
Definition use_tool (self : Agent) (tool_name : pyval)
  (kwargs : list (string * pyval)) : M trace string :=
  match tool_name with
  | PyList _ | PyDict _ => raise (Fault (Unhashable (type_name tool_name)))
  | PyStr n =>
      match dict_get n (tools self) with
      | None => raise (tool_not_found self tool_name)
      | Some tool => emit (EvTool n kwargs) ;;; func tool kwargs
      end
  | _ => raise (tool_not_found self tool_name)
  end.

Definition parameter_json (p : string * param_info) : string * pyval :=
  (fst p,
   PyDict [("type", PyStr (param_type (snd p)));
           ("description", PyStr (param_description (snd p)))]).

Definition tool_json (tool : Tool) : pyval :=
  PyDict
    [("name", PyStr (name tool));
     ("description", PyStr (description tool));
     ("parameters", PyDict (map parameter_json (parameters tool)))].

Definition tools_json (self : Agent) : pyval :=
  PyDict
    [("role", PyStr "AI Assistant");
     ("capabilities",
       strs ["Using provided tools to help users when necessary";
             "Responding directly without tools for questions that don't require tool usage";
             "Planning efficient tool usage sequences"]);
     ("instructions",
       strs ["Use tools only when they are necessary for the task";
             "If a query can be answered directly, respond with a simple message instead of using tools";
             "When tools are needed, plan their usage efficiently to minimize tool calls"]);
     ("tools", PyList (map tool_json (dict_values (tools self))));
     ("response_format", response_format)].

(** [create_system_prompt] *)
Definition create_system_prompt (self : Agent) : string :=
  render_system_prompt (tools_json self).

Definition plan_request (self : Agent) (user_query : string)
  : chat_request :=
  {| model := "gpt-4o-mini";
     messages := [Message "system" (create_system_prompt self);
                  Message "user" user_query];
     temperature := 0 |}.

(** [plan]: one model request; a reply that is not JSON is re-raised
    as a [ValueError]. *)
Definition plan (self : Agent) (user_query : string) : M trace pyval :=
  reply <- chat_completion (plan_request self user_query) ;;
  match json_loads reply with
  | inr p => ret p
  | inl _ => raise (ValueError "Failed to parse LLM response as JSON")
  end.

(** Binding [**tool_args] at the call [self.use_tool(tool_name,
    **tool_args)]: the argument must be a mapping, and a key that names
    one of [use_tool]'s own parameters cannot be passed on. *)
Definition bind_use_tool_kwargs (tool_args : pyval)
  : exn + list (string * pyval) :=
  match py_kwargs tool_args with
  | inl e => inl e
  | inr kwargs =>
      if orb (dict_mem "self" kwargs) (dict_mem "tool_name" kwargs)
      then inl (Fault (BadKeywords "use_tool"))
      else inr kwargs
  end.

(** The body of [for tool_call in plan["tool_calls"]], with [results]
    the list built so far. *)
Fixpoint run_tool_calls (self : Agent) (calls : list pyval)
  (results : list string) : M trace (list string) :=
  match calls with
  | [] => ret results
  | tool_call :: rest =>
      tool_name <- lift (py_getitem tool_call "tool") ;;
      tool_args <- lift (py_getitem tool_call "args") ;;
      kwargs <- lift (bind_use_tool_kwargs tool_args) ;;
      result <- use_tool self tool_name kwargs ;;
      run_tool_calls self rest (results ++ [result])%list
  end.

Definition render_results (thought : pyval) (steps : string)
  (results : list string) : string :=
  "Thought: " ++ py_str thought ++ nl ++
  "Plan: " ++ steps ++ nl ++
  "Results: " ++ String.concat ". " results.

(** [execute], from the loop on: run the tool calls in sequence and
    combine the results. *)
Definition execute_tools (self : Agent) (p : pyval) : M trace pyval :=
  tool_calls <- lift (py_getitem p "tool_calls") ;;
  calls <- lift (py_iter tool_calls) ;;
  results <- run_tool_calls self calls [] ;;
  thought <- lift (py_getitem p "thought") ;;
  steps <- lift (py_getitem p "plan") ;;
  joined <- lift (py_join ". " steps) ;;
  ret (PyStr (render_results thought joined results)).

(** [execute], after planning: the direct response or the tool path. *)
Definition execute_plan (self : Agent) (p : pyval) : M trace pyval :=
  requires_tools <- lift (py_get p "requires_tools" (PyBool true)) ;;
  if negb (truthy requires_tools)
  then lift (py_getitem p "direct_response")
  else execute_tools self p.

(** The [try] block of [execute]. *)
Definition execute_body (self : Agent) (user_query : string)
  : M trace pyval :=
  p <- plan self user_query ;;
  execute_plan self p.

(** [execute] *)
Definition execute (self : Agent) (user_query : string) : M trace pyval :=
  try_except (execute_body self user_query)
    (fun e => ret (PyStr ("Error executing plan: " ++ str_exn e))).

(** *** [tools.py] *)

Definition rates_url (code : string) : string :=
  "https://open.er-api.com/v6/latest/" ++ code.

(** The [try] block of [convert_currency]. *)
Definition convert_currency_body (amount from_currency to_currency : pyval)
  : M trace string :=
  from_code <- lift (py_upper from_currency) ;;
  body <- http_get (rates_url from_code) ;;
  data <- match json_loads body with
          | inr v => ret v
          | inl msg => raise (JSONDecodeError msg)
          end ;;
  has_rates <- lift (py_contains "rates" data) ;;
  if negb has_rates
  then ret "Error: Could not fetch exchange rates"
  else
    rates <- lift (py_getitem data "rates") ;;
    get <- lift (py_get_method rates) ;;
    to_code <- lift (py_upper to_currency) ;;
    let rate := get to_code PyNone in
    if negb (truthy rate)
    then ret ("Error: No rate found for " ++ py_str to_currency)
    else
      converted <- lift (py_mul amount rate) ;;
      from_code' <- lift (py_upper from_currency) ;;
      shown <- lift (py_format_2f converted) ;;
      to_code' <- lift (py_upper to_currency) ;;
      ret (py_str amount ++ " " ++ from_code' ++ " = " ++ shown
           ++ " " ++ to_code').

(** [convert_currency] *)
Definition convert_currency (amount from_currency to_currency : pyval)
  : M trace string :=
  try_except
    (convert_currency_body amount from_currency to_currency)
    (fun e => ret ("Error converting currency: " ++ str_exn e)).

(** Binding keyword arguments to [(amount, from_currency,
    to_currency)]: exactly these three names. *)
Definition bind_convert_currency (kwargs : list (string * pyval))
  : exn + (pyval * pyval * pyval) :=
  match dict_get "amount" kwargs,
        dict_get "from_currency" kwargs,
        dict_get "to_currency" kwargs with
  | Some a, Some f, Some t =>
      if Nat.eqb (length kwargs) 3 then inr (a, f, t)
      else inl (Fault (BadKeywords "convert_currency"))
  | _, _, _ => inl (Fault (BadKeywords "convert_currency"))
  end.

(** Modelled from the spec: what the [tool()] decorator of the missing
    [tool_registry] module makes of [convert_currency]: a [Tool] with
    the function's name, the first line of its docstring, the schema of
    its three parameters, and the function itself as implementation. *)
Definition convert_currency_tool : Tool :=
  {| name := "convert_currency";
     description := "Converts currency using latest exchange rates.";
     parameters :=
       [("amount", ParamInfo "float" "Amount to convert");
        ("from_currency",
          ParamInfo "str" "Source currency code (e.g., USD)");
        ("to_currency",
          ParamInfo "str" "Target currency code (e.g., EUR)")];
     func := fun kwargs =>
       args <- lift (bind_convert_currency kwargs) ;;
       let '(a, f, t) := args in
       convert_currency a f t |}.
End WithRuntime.
End ToolUse.

(** ** The reflecting agent ([planning/reflection/src/main.py]) *)

Module Interaction.

(** Record of a single interaction with the agent. *)
Record t : Type := Make {
  timestamp : Z;
  query : string;
  plan : pyval
}.

Definition set_plan (i : t) (p : pyval) : t :=
  {| timestamp := timestamp i; query := query i; plan := p |}.

End Interaction.

Module Reflection.

(** The agent object: its working memory and the model it asks. *)
Record Agent : Type := MkAgent {
  interactions : list Interaction.t;
  model : string
}.

(** [Agent(model)] *)
Definition new_agent (model : string) : Agent :=
  {| interactions := []; model := model |}.

(** The agent together with the history of the world it acts on. *)
Record state : Type := MkState {
  self : Agent;
  history : trace
}.

Fixpoint last_item {A : Type} (l : list A) : option A :=
  match l with
  | [] => None
  | [x] => Some x
  | _ :: rest => last_item rest
  end.

Fixpoint set_last {A : Type} (f : A -> A) (l : list A) : list A :=
  match l with
  | [] => []
  | [x] => [f x]
  | x :: rest => x :: set_last f rest
  end.

Definition get_self : M state Agent := fun s => (inr (self s), s).

Definition set_interactions (l : list Interaction.t) : M state unit :=
  fun s =>
    (inr tt,
     {| self := {| interactions := l; model := model (self s) |};
        history := history s |}).

(** A computation on the world, run on the agent's side. *)
Definition on_world {A : Type} (m : M trace A) : M state A :=
  fun s =>
    let (r, tr) := m (history s) in
    (r, {| self := self s; history := tr |}).

Definition tools_json : pyval :=
  PyDict
    [("role", PyStr "AI Assistant");
     ("capabilities",
       strs ["Using provided tools to help users when necessary";
             "Responding directly without tools for questions that don't require tool usage";
             "Planning efficient tool usage sequences";
             "If asked by the user, reflecting on the plan and suggesting changes if needed"]);
     ("instructions",
       strs ["Use tools only when they are necessary for the task";
             "If a query can be answered directly, respond with a simple message instead of using tools";
             "When tools are needed, plan their usage efficiently to minimize tool calls";
             "If asked by the user, reflect on the plan and suggest changes if needed"]);
     ("tools",
       PyList
         [PyDict
            [("name", PyStr "convert_currency");
             ("description",
               PyStr "Converts currency using latest exchange rates.");
             ("parameters",
               PyDict
                 [("amount", schema_field "float" "Amount to convert" []);
                  ("from_currency",
                    schema_field "str" "Source currency code (e.g., USD)" []);
                  ("to_currency",
                    schema_field "str" "Target currency code (e.g., EUR)" [])])]]);
     ("response_format", response_format)].

Definition reflection_prompt (latest_interaction : Interaction.t) : pyval :=
  PyDict
    [("task", PyStr "reflection");
     ("context",
       PyDict
         [("user_query", PyStr (Interaction.query latest_interaction));
          ("generated_plan", Interaction.plan latest_interaction)]);
     ("instructions",
       strs ["Review the generated plan for potential improvements";
             "Consider if the chosen tools are appropriate";
             "Verify tool parameters are correct";
             "Check if the plan is efficient";
             "Determine if tools are actually needed"]);
     ("response_format",
       PyDict
         [("type", PyStr "json");
          ("schema",
            PyDict
              [("requires_changes",
                 schema_field "boolean" "whether the plan needs modifications" []);
               ("reflection",
                 schema_field "string"
                   "explanation of what changes are needed or why no changes are needed"
                   []);
               ("suggestions",
                 PyDict
                   [("type", PyStr "array");
                    ("items", PyDict [("type", PyStr "string")]);
                    ("description",
                      PyStr "specific suggestions for improvements");
                    ("optional", PyBool true)])])])].

Section WithRuntime.
Context {RT : PyRuntime} {W : World}.

(** [create_system_prompt] *)
Definition create_system_prompt : string := render_system_prompt tools_json.

Definition plan_request (a : Agent) (user_query : string) : chat_request :=
  ChatRequest (model a)
    [Message "system" create_system_prompt;
     Message "user" user_query]
    0.

(** [plan]: one model request; the parsed plan is stored as a new
    interaction; a reply that is not JSON is re-raised as a [ValueError]. *)
Definition plan (user_query : string) : M state pyval :=
  a <- get_self ;;
  reply <- on_world (chat_completion (plan_request a user_query)) ;;
  match json_loads reply with
  | inr p =>
      stamp <- on_world (fun tr => (inr (now tr), tr)) ;;
      a' <- get_self ;;
      set_interactions
        (interactions a' ++ [Interaction.Make stamp user_query p])%list ;;;
      ret p
  | inl _ => raise (ValueError "Failed to parse LLM response as JSON")
  end.

Definition reflect_request (a : Agent) (latest_interaction : Interaction.t)
  : chat_request :=
  ChatRequest (model a)
    [Message "system" create_system_prompt;
     Message "user"
       (json_dumps (Some 2%nat) (reflection_prompt latest_interaction))]
    0.

Definition no_plan_to_reflect_on : pyval :=
  PyDict [("reflection", PyStr "No plan to reflect on");
          ("requires_changes", PyBool false)].

(** [reflect_on_plan]: with an empty memory a fixed neutral reflection;
    otherwise one model request about the latest interaction, whose reply
    is the reflection, or its raw text under ["reflection"] when it is not
    JSON. *)
Definition reflect_on_plan : M state pyval :=
  a <- get_self ;;
  match last_item (interactions a) with
  | None => ret no_plan_to_reflect_on
  | Some latest_interaction =>
      reply <- on_world (chat_completion (reflect_request a latest_interaction)) ;;
      match json_loads reply with
      | inr r => ret r
      | inl _ => ret (PyDict [("reflection", PyStr reply)])
      end
  end.

Definition revision_request (a : Agent) (user_query : string)
  (initial_plan reflection : pyval) : chat_request :=
  ChatRequest (model a)
    [Message "system" create_system_prompt;
     Message "user" user_query;
     Message "assistant" (json_dumps None initial_plan);
     Message "user"
       ("Please revise the plan based on this feedback: "
        ++ json_dumps None reflection)]
    0.

(** The branch of [execute] taken when the reflection asks for changes:
    one more model request; its reply is the final plan, or the initial
    plan when it is not JSON. *)
Definition revise (user_query : string) (initial_plan reflection : pyval)
  : M state pyval :=
  a <- get_self ;;
  reply <- on_world
             (chat_completion
                (revision_request a user_query initial_plan reflection)) ;;
  match json_loads reply with
  | inr p => ret p
  | inl _ => ret initial_plan
  end.

Definition stored_plan (initial_plan reflection final_plan : pyval) : pyval :=
  PyDict [("initial_plan", initial_plan);
          ("reflection", reflection);
          ("final_plan", final_plan)].

(** [self.interactions[-1].plan = ...] *)
Definition update_latest_plan (p : pyval) : M state unit :=
  a <- get_self ;;
  match last_item (interactions a) with
  | None => raise (Fault EmptySequence)
  | Some _ =>
      set_interactions
        (set_last (fun i => Interaction.set_plan i p) (interactions a))
  end.

Definition reflection_text (reflection : pyval) : exn + pyval :=
  py_get reflection "reflection" (PyStr "No improvements suggested").

(** The summary of a plan that requires tools. *)
Definition render_with_tools (initial_plan reflection final_plan : pyval)
  : M state pyval :=
  thought <- lift (py_getitem initial_plan "thought") ;;
  initial_steps <- lift (py_getitem initial_plan "plan") ;;
  initial_joined <- lift (py_join ". " initial_steps) ;;
  text <- lift (reflection_text reflection) ;;
  final_steps <- lift (py_getitem final_plan "plan") ;;
  final_joined <- lift (py_join ". " final_steps) ;;
  ret (PyStr ("Initial Thought: " ++ py_str thought ++ nl ++
              "Initial Plan: " ++ initial_joined ++ nl ++
              "Reflection: " ++ py_str text ++ nl ++
              "Final Plan: " ++ final_joined)).

(** The summary of a direct response. *)
Definition render_direct (reflection final_plan : pyval) : M state pyval :=
  response <- lift (py_getitem final_plan "direct_response") ;;
  text <- lift (reflection_text reflection) ;;
  ret (PyStr ("Response: " ++ py_str response ++ nl ++
              "Reflection: " ++ py_str text)).

(** The last statement of [execute]'s [try] block. *)
Definition render (initial_plan reflection final_plan : pyval)
  : M state pyval :=
  requires_tools <- lift (py_get final_plan "requires_tools" (PyBool true)) ;;
  if truthy requires_tools
  then render_with_tools initial_plan reflection final_plan
  else render_direct reflection final_plan.

(** The [try] block of [execute]. *)
Definition execute_body (user_query : string) : M state pyval :=
  initial_plan <- plan user_query ;;
  reflection <- reflect_on_plan ;;
  requires_changes <-
    lift (py_get reflection "requires_changes" (PyBool false)) ;;
  final_plan <-
    (if truthy requires_changes
     then revise user_query initial_plan reflection
     else ret initial_plan) ;;
  update_latest_plan (stored_plan initial_plan reflection final_plan) ;;;
  render initial_plan reflection final_plan.

(** [execute] *)
Definition execute (user_query : string) : M state pyval :=
  try_except (execute_body user_query)
    (fun e => ret (PyStr ("Error executing plan: " ++ str_exn e))).

End WithRuntime.
End Reflection.

(** * Vocabulary of the statements *)

Definition is_digit (c : ascii) : bool :=
  andb (Nat.leb 48 (nat_of_ascii c)) (Nat.leb (nat_of_ascii c) 57).

(** [s] reads as some text, a decimal point, and exactly two digits. *)
Definition two_decimals (s : string) : Prop :=
  exists whole d1 d2,
    s = whole ++ "." ++ String d1 (String d2 EmptyString)
    /\ is_digit d1 = true /\ is_digit d2 = true.

(** What it means to run the tool calls of a plan one at a time, in the
    order listed: each call names a registered tool and carries a mapping
    of arguments; the tool runs in the world the previous call left, and
    its string result is collected at the same position. *)
Inductive calls_run (self : ToolUse.Agent)
  : list pyval -> trace -> list string -> trace -> Prop :=
| calls_run_nil (tr : trace) : calls_run self [] tr [] tr
| calls_run_cons (call : pyval) (rest : list pyval) (n : string)
    (args : list (string * pyval)) (T : ToolUse.Tool) (r : string)
    (rs : list string) (tr tr1 tr2 : trace) :
    py_getitem call "tool" = inr (PyStr n) ->
    py_getitem call "args" = inr (PyDict args) ->
    dict_mem "self" args = false ->
    dict_mem "tool_name" args = false ->
    dict_get n (ToolUse.tools self) = Some T ->
    ToolUse.func T args (tr ++ [EvTool n args])%list = (inr r, tr1) ->
    calls_run self rest tr1 rs tr2 ->
    calls_run self (call :: rest) tr (r :: rs) tr2.

(** Every entry of the registry sits under its tool's own name. *)
Definition keyed_by_name (self : ToolUse.Agent) : Prop :=
  Forall (fun kv => fst kv = ToolUse.name (snd kv)) (ToolUse.tools self).

(** The plan of the conversion scenario: convert 100 USD to EUR. *)
Definition conversion_plan (thought : string) (steps : list string) : pyval :=
  PyDict
    [("requires_tools", PyBool true);
     ("thought", PyStr thought);
     ("plan", strs steps);
     ("tool_calls",
       PyList
         [PyDict
            [("tool", PyStr "convert_currency");
             ("args",
               PyDict
                 [("amount", PyInt 100);
                  ("from_currency", PyStr "USD");
                  ("to_currency", PyStr "EUR")])]])].

(** 0.9 as [json.loads] reads it: the binary64 nearest to 9/10. *)
Definition nine_tenths : pyfloat := float_div (float_of_Z 9) (float_of_Z 10).

Definition is_chat (ev : event) : bool :=
  match ev with EvChat _ => true | _ => false end.

(** A revision request carries the conversation so far: four turns, the
    third being the assistant's initial plan and the last asking for a
    revision. *)
Definition is_revision_request (ev : event) : bool :=
  match ev with
  | EvChat req =>
      match messages req with
      | [_; _; a; u] =>
          andb (String.eqb (role a) "assistant")
               (String.prefix "Please revise the plan based on this feedback: "
                  (content u))
      | _ => false
      end
  | _ => false
  end.

(** The state of the reflecting agent once the world's history is [h]. *)
Definition with_history (s : Reflection.state) (h : trace) : Reflection.state :=
  {| Reflection.self := Reflection.self s; Reflection.history := h |}.

(** The same, with one more interaction in the working memory. *)
Definition remembering (s : Reflection.state) (i : Interaction.t) (h : trace)
  : Reflection.state :=
  {| Reflection.self :=
       {| Reflection.interactions :=
            (Reflection.interactions (Reflection.self s) ++ [i])%list;
          Reflection.model := Reflection.model (Reflection.self s) |};
     Reflection.history := h |}.

(** The events a computation adds to the history from state [s]. *)
Definition emits {A : Type} (m : M Reflection.state A) (s : Reflection.state)
  (evs : list event) : Prop :=
  Reflection.history (snd (m s)) = (Reflection.history s ++ evs)%list.

Section ReflectionRun.
Context {RT : PyRuntime} {W : World}.
Import Reflection.

(** The three requests of one execution, as seen from the start state. *)
Definition plan_event (s : state) (q : string) : event :=
  EvChat (plan_request (self s) q).

Definition after_plan (s : state) (q : string) : trace :=
  (history s ++ [plan_event s q])%list.

Definition planned_interaction (s : state) (q : string) (p : pyval)
  : Interaction.t :=
  Interaction.Make (now (after_plan s q)) q p.

Definition reflect_event (s : state) (q : string) (p : pyval) : event :=
  EvChat (reflect_request (self s) (planned_interaction s q p)).

Definition after_reflect (s : state) (q : string) (p : pyval) : trace :=
  (after_plan s q ++ [reflect_event s q p])%list.

Definition revision_event (s : state) (q : string) (p r : pyval) : event :=
  EvChat (revision_request (self s) q p r).

Definition after_revision (s : state) (q : string) (p r : pyval) : trace :=
  (after_reflect s q p ++ [revision_event s q p r])%list.

(** The histories one execution can leave: the plan request alone, or
    followed by the reflection request, or followed by the reflection
    request and one revision request. *)
Definition run_shape (s : state) (q : string) (h : trace) : Prop :=
  h = after_plan s q
  \/ (exists p, h = after_reflect s q p)
  \/ (exists p r, h = after_revision s q p r).

End ReflectionRun.

(** * Test doubles

    A small JSON encoder, a runtime whose decoder inverts the encoder on a
    fixed list of known values, and a world whose model replies from a
    script (the n-th request gets the n-th reply) and whose HTTP endpoint
    serves a fixed table of bodies. *)

Module Stub.

Definition quoted (s : string) : string :=
  String (ascii_of_nat 34) s ++ String (ascii_of_nat 34) EmptyString.

Fixpoint encode (v : pyval) : string :=
  match v with
  | PyNone => "null"
  | PyBool true => "true"
  | PyBool false => "false"
  | PyInt z => Z_to_string z
  | PyFloat f => format_2f f
  | PyStr s => quoted s
  | PyList l => "[" ++ String.concat ", " (map encode l) ++ "]"
  | PyDict d =>
      "{" ++ String.concat ", "
               (map (fun kv : string * pyval => let (k, x) := kv in quoted k ++ ": " ++ encode x) d)
      ++ "}"
  end.

Fixpoint decoder (known : list pyval) (text : string) : string + pyval :=
  match known with
  | [] => inl "Expecting value: line 1 column 1 (char 0)"
  | v :: rest =>
      if String.eqb (encode v) text then inr v else decoder rest text
  end.

Definition runtime (known : list pyval) : PyRuntime :=
  {| json_loads := decoder known;
     json_dumps := fun _ => encode;
     py_repr := encode;
     unicode_upper := fun s => s;
     fault_text := fun _ => "fault" |}.

Definition scripted_llm (script : list (exn + string)) (tr : trace)
  (_ : chat_request) : exn + string :=
  nth (length (filter is_chat tr)) script
      (inl (External "APIConnectionError" "Connection error.")).

Definition served (pages : list (string * string)) (_ : trace) (url : string)
  : exn + string :=
  match dict_get url pages with
  | Some body => inr body
  | None => inl (External "HTTPError" "HTTP Error 404: Not Found")
  end.

Definition world (script : list (exn + string))
  (pages : list (string * string)) : World :=
  {| llm := scripted_llm script;
     urlopen_read := served pages;
     now := fun tr => Z.of_nat (length tr) |}.

Definition rate_table : pyval :=
  PyDict [("rates", PyDict [("EUR", PyFloat nine_tenths)])].

Definition rates_page : list (string * string) :=
  [("https://open.er-api.com/v6/latest/USD", encode rate_table)].

Definition conversion_runtime : PyRuntime :=
  runtime [conversion_plan "..." ["..."]; rate_table].

Definition conversion_world : World :=
  world [inr (encode (conversion_plan "..." ["..."]))] rates_page.

Definition currency_agent {RT : PyRuntime} {W : World} : ToolUse.Agent :=
  ToolUse.add_tool ToolUse.new_agent ToolUse.convert_currency_tool.

Definition conversion_args : list (string * pyval) :=
  [("amount", PyInt 100); ("from_currency", PyStr "USD");
   ("to_currency", PyStr "EUR")].

(** A tool that upper-cases its [text] argument. *)
Definition shout : ToolUse.Tool :=
  {| ToolUse.name := "shout";
     ToolUse.description := "Upper-cases a text.";
     ToolUse.parameters :=
       [("text", ToolUse.ParamInfo "str" "Text to upper-case")];
     ToolUse.func := fun kwargs =>
       match dict_get "text" kwargs with
       | Some (PyStr s) => ret (map_chars upper_char s)
       | _ => raise (External "TypeError" "shout() needs a text")
       end |}.

(** A plan that calls [shout] twice. *)
Definition shouting_plan : pyval :=
  PyDict
    [("requires_tools", PyBool true);
     ("thought", PyStr "...");
     ("plan", strs ["..."]);
     ("tool_calls",
       PyList
         [PyDict [("tool", PyStr "shout");
                  ("args", PyDict [("text", PyStr "hi")])];
          PyDict [("tool", PyStr "shout");
                  ("args", PyDict [("text", PyStr "ho")])]])].

Definition shouting_runtime : PyRuntime := runtime [shouting_plan].

Definition shouting_world : World :=
  world [inr (encode shouting_plan)] [].

(** An endpoint that answers, but not with rates. *)
Definition no_rates_reply : pyval := PyDict [("result", PyStr "error")].

Definition no_rates_runtime : PyRuntime := runtime [no_rates_reply].

Definition no_rates_world : World :=
  world [] [("https://open.er-api.com/v6/latest/USD", encode no_rates_reply)].

(** An endpoint whose body is not JSON, and a model whose reply is not. *)
Definition garbled_world : World :=
  world [inr "Sorry, I cannot help with that."]
        [("https://open.er-api.com/v6/latest/USD", "<html>Bad Gateway</html>")].


(** The replies of the reflection scenarios. *)
Definition two_step_plan : pyval :=
  PyDict
    [("requires_tools", PyBool true);
     ("thought", PyStr "Convert in two steps");
     ("plan", strs ["Convert USD to EUR"; "Report the amount"]);
     ("tool_calls", PyList [])].

Definition critical_reflection : list (string * pyval) :=
  [("requires_changes", PyBool true);
   ("reflection", PyStr "One step is enough")].

Definition reflection_runtime : PyRuntime :=
  runtime [two_step_plan; PyDict critical_reflection].

(** Plan, critical reflection, then a revision that is not JSON. *)
Definition fallback_world : World :=
  world [inr (encode two_step_plan);
         inr (encode (PyDict critical_reflection));
         inr "I would rather not revise."]
        [].

(** Plan, then a reflection that is not JSON. *)
Definition rambling_world : World :=
  world [inr (encode two_step_plan); inr "Looks fine to me."] [].

Definition fresh : Reflection.state :=
  {| Reflection.self := Reflection.new_agent "gpt-4o-mini";
     Reflection.history := [] |}.

(** An agent that already remembers one interaction, asked to reflect by
    a model whose reply is not JSON. *)
Definition remembered : Interaction.t :=
  Interaction.Make 0 "Convert 100 USD to EUR" two_step_plan.

Definition experienced : Reflection.state :=
  {| Reflection.self :=
       {| Reflection.interactions := [remembered];
          Reflection.model := "gpt-4o-mini" |};
     Reflection.history := [] |}.

Definition musing_world : World := world [inr "Looks fine to me."] [].

End Stub.

(** * Properties *)

(** ** Dictionaries and the monad *)

Section DictFacts.
Context {V : Type}.

Lemma dict_get_set_same (k : string) (v : V) (d : list (string * V)) :
  dict_get k (dict_set k v d) = Some v.
Proof.
  induction d as [|[k' v'] d IH]; simpl.
  - now rewrite String.eqb_refl.
  - destruct (String.eqb k k') eqn:E; simpl; rewrite E; auto.
Qed.

Lemma dict_get_set_other (k k' : string) (v : V) (d : list (string * V)) :
  k <> k' -> dict_get k (dict_set k' v d) = dict_get k d.
Proof.
  intros Hne. induction d as [|[k0 v0] d IH]; simpl.
  - destruct (String.eqb k k') eqn:E; auto.
    apply String.eqb_eq in E. contradiction.
  - destruct (String.eqb k' k0) eqn:E0; simpl.
    + apply String.eqb_eq in E0. subst k0.
      destruct (String.eqb k k') eqn:E; auto.
      apply String.eqb_eq in E. contradiction.
    + destruct (String.eqb k k0); auto.
Qed.

End DictFacts.

Section MonadFacts.
Context {S A B : Type}.

Lemma bind_ok (m : M S A) (k : A -> M S B) (s s' : S) (a : A) :
  m s = (inr a, s') -> bind m k s = k a s'.
Proof. intros H. unfold bind. now rewrite H. Qed.

Lemma bind_raise (m : M S A) (k : A -> M S B) (s s' : S) (e : exn) :
  m s = (inl e, s') -> bind m k s = (inl e, s').
Proof. intros H. unfold bind. now rewrite H. Qed.

Lemma try_except_ok (m : M S A) (h : exn -> M S A) (s s' : S) (a : A) :
  m s = (inr a, s') -> try_except m h s = (inr a, s').
Proof. intros H. unfold try_except. now rewrite H. Qed.

Lemma try_except_raise (m : M S A) (h : exn -> M S A) (s s' : S) (e : exn) :
  m s = (inl e, s') -> try_except m h s = h e s'.
Proof. intros H. unfold try_except. now rewrite H. Qed.

(** A handler that always returns makes the whole [try] always return. *)
Lemma try_except_total (m : M S A) (f : exn -> A) (s : S) :
  exists a s', try_except m (fun e => ret (f e)) s = (inr a, s').
Proof.
  unfold try_except, ret. destruct (m s) as [[e|a] s']; eauto.
Qed.

End MonadFacts.

Lemma starts_with_app (p rest : string) : starts_with p (p ++ rest).
Proof. now exists rest. Qed.

Lemma string_app_assoc (a b c : string) : (a ++ b) ++ c = a ++ (b ++ c).
Proof. induction a; simpl; congruence. Qed.

Lemma occurs_in_middle (pre sub post : string) :
  occurs_in sub (pre ++ sub ++ post).
Proof. now exists pre, post. Qed.

(** ** The tool registry *)

Section RegistryFacts.
Context {RT : PyRuntime} {W : World}.
Import ToolUse.





End RegistryFacts.

(** ** The tool-using executor *)

Section ToolUseFacts.
Context {RT : PyRuntime} {W : World}.
Import ToolUse.

Lemma plan_ok (self : Agent) (q : string) (tr : trace) (reply : string)
  (p : pyval) :
  llm tr (plan_request self q) = inr reply ->
  json_loads reply = inr p ->
  plan self q tr = (inr p, tr ++ [EvChat (plan_request self q)])%list.
Proof.
  intros Hllm Hjson. unfold plan, bind, chat_completion.
  rewrite Hllm, Hjson. reflexivity.
Qed.

Lemma plan_parse_error (self : Agent) (q : string) (tr : trace)
  (reply msg : string) :
  llm tr (plan_request self q) = inr reply ->
  json_loads reply = inl msg ->
  plan self q tr
  = (inl (ValueError "Failed to parse LLM response as JSON"),
     tr ++ [EvChat (plan_request self q)])%list.
Proof.
  intros Hllm Hjson. unfold plan, bind, chat_completion.
  rewrite Hllm, Hjson. reflexivity.
Qed.

Lemma execute_body_planned (self : Agent) (q : string) (tr : trace)
  (reply : string) (p : pyval) :
  llm tr (plan_request self q) = inr reply ->
  json_loads reply = inr p ->
  execute_body self q tr
  = execute_plan self p (tr ++ [EvChat (plan_request self q)])%list.
Proof.
  intros Hllm Hjson. unfold execute_body.
  now rewrite (bind_ok _ _ _ _ _ (plan_ok _ _ _ _ _ Hllm Hjson)).
Qed.

Lemma execute_plan_with_tools (self : Agent) (d : list (string * pyval))
  (flag : pyval) (tr : trace) :
  dict_get "requires_tools" d = Some flag ->
  truthy flag = true ->
  execute_plan self (PyDict d) tr = execute_tools self (PyDict d) tr.
Proof.
  intros Hflag Htrue.
  unfold execute_plan, bind, lift, py_get, py_get_method.
  rewrite Hflag, Htrue. reflexivity.
Qed.

(** C2. Whatever the query, [execute] never lets an exception out: an
    exception raised anywhere in its pipeline is turned into the string
    ["Error executing plan: "] followed by the exception's text.  In
    particular a model reply that is not valid JSON and a plan that calls
    a tool missing from the registry both end in such a string. *)
Theorem execute_catches_everything (self : Agent) (q : string) (tr : trace) :
  (exists v tr', execute self q tr = (inr v, tr'))
  /\
  (forall e tr',
      execute_body self q tr = (inl e, tr') ->
      execute self q tr
      = (inr (PyStr ("Error executing plan: " ++ str_exn e)), tr')
      /\ starts_with "Error executing plan:"
           ("Error executing plan: " ++ str_exn e))
  /\
  (forall reply msg,
      llm tr (plan_request self q) = inr reply ->
      json_loads reply = inl msg ->
      execute self q tr
      = (inr (PyStr
                "Error executing plan: Failed to parse LLM response as JSON"),
         tr ++ [EvChat (plan_request self q)])%list)
  /\
  (forall reply d flag call rest n args,
      llm tr (plan_request self q) = inr reply ->
      json_loads reply = inr (PyDict d) ->
      dict_get "requires_tools" d = Some flag ->
      truthy flag = true ->
      dict_get "tool_calls" d = Some (PyList (call :: rest)) ->
      py_getitem call "tool" = inr (PyStr n) ->
      py_getitem call "args" = inr (PyDict args) ->
      dict_mem "self" args = false ->
      dict_mem "tool_name" args = false ->
      dict_get n (tools self) = None ->
      exists s,
        execute self q tr
        = (inr (PyStr s), tr ++ [EvChat (plan_request self q)])%list
        /\ starts_with ("Error executing plan: Tool '" ++ n ++ "' not found.") s).
Proof.
  repeat split.
  - apply (try_except_total (execute_body self q)
             (fun e => PyStr ("Error executing plan: " ++ str_exn e))).
  - unfold execute. now rewrite (try_except_raise _ _ _ _ _ H).
  - now exists (" " ++ str_exn e).
  - intros reply msg Hllm Hjson. unfold execute.
    erewrite try_except_raise.
    2:{ unfold execute_body.
        apply bind_raise. eapply plan_parse_error; eauto. }
    reflexivity.
  - intros reply d flag call rest n args Hllm Hjson Hflag Htrue Hcalls
      Htool Hargs Hself Hname Hmissing.
    unfold execute.
    erewrite try_except_raise.
    2:{ rewrite (execute_body_planned _ _ _ _ _ Hllm Hjson).
        rewrite (execute_plan_with_tools _ _ _ _ Hflag Htrue).
        unfold execute_tools, bind, lift. simpl py_getitem at 1.
        rewrite Hcalls. simpl py_iter. cbv iota beta.
        simpl run_tool_calls. unfold bind, lift.
        rewrite Htool, Hargs. unfold bind_use_tool_kwargs. simpl py_kwargs.
        cbv iota beta. rewrite Hself, Hname. simpl orb. cbv iota beta.
        unfold use_tool. rewrite Hmissing. unfold raise. reflexivity. }
    unfold ret, tool_not_found. simpl py_str.
    eexists. split; [reflexivity|].
    exists (" Available tools: " ++ py_repr (strs (dict_keys (tools self)))).
    simpl. now rewrite string_app_assoc.
Qed.

(** ** The currency tool *)

Lemma two_digits_shape (z : Z) :
  (0 <= z < 100)%Z ->
  exists d1 d2,
    two_digits z = String d1 (String d2 EmptyString)
    /\ is_digit d1 = true /\ is_digit d2 = true.
Proof.
  intros Hz.
  assert (Hn : exists n, (n < 100)%nat /\ z = Z.of_nat n).
  { exists (Z.to_nat z). split; lia. }
  destruct Hn as [n [Hlt ->]]. clear Hz.
  do 100 (destruct n as [|n];
          [vm_compute; do 2 eexists; repeat split; reflexivity|]).
  lia.
Qed.

Lemma format_2f_two_decimals (f : pyfloat) :
  is_finite f = true -> two_decimals (format_2f f).
Proof.
  destruct f as [s|s| |s m e]; simpl; try discriminate; intros _.
  - exists (float_sign s ++ "0"), "0"%char, "0"%char.
    repeat split. now rewrite string_app_assoc.
  - destruct (two_digits_shape (hundredths m e mod 100)) as [d1 [d2 [Heq [H1 H2]]]].
    { apply Z.mod_pos_bound. lia. }
    exists (float_sign s ++ Z_to_string (hundredths m e / 100)), d1, d2.
    repeat split; auto.
    rewrite Heq. now rewrite string_app_assoc.
Qed.

(** Whatever [format(v, '.2f')] returns is the two-decimal rendering of a
    float: [v] itself, or the float an integer [v] converts to. *)
Lemma py_format_2f_inv (v : pyval) (shown : string) :
  py_format_2f v = inr shown ->
  exists f, shown = format_2f f /\ (is_finite f = true -> two_decimals shown).
Proof.
  intros H.
  assert (Hf : exists f, shown = format_2f f).
  { destruct v; simpl in H; try discriminate.
    - destruct (int_to_float (Z.b2z b)); inversion H; eauto.
    - destruct (int_to_float z); inversion H; eauto.
    - inversion H; eauto. }
  destruct Hf as [f ->]. exists f. split; auto.
  apply format_2f_two_decimals.
Qed.

Lemma convert_currency_total (amount from_currency to_currency : pyval)
  (tr : trace) :
  exists s tr',
    convert_currency amount from_currency to_currency tr = (inr s, tr').
Proof.
  apply (try_except_total
           (convert_currency_body amount from_currency to_currency)
           (fun e => "Error converting currency: " ++ str_exn e)).
Qed.

Lemma convert_currency_network_failure (amount to_currency : pyval)
  (f : string) (tr : trace) (e : exn) :
  urlopen_read tr (rates_url (str_upper f)) = inl e ->
  convert_currency amount (PyStr f) to_currency tr
  = (inr ("Error converting currency: " ++ str_exn e),
     (tr ++ [EvUrlOpen (rates_url (str_upper f))])%list).
Proof.
  intros Hnet.
  unfold convert_currency, convert_currency_body, try_except, bind, lift,
    http_get.
  simpl py_upper. cbv iota beta. rewrite Hnet. reflexivity.
Qed.

Lemma convert_currency_bad_json (amount to_currency : pyval)
  (f : string) (tr : trace) (body msg : string) :
  urlopen_read tr (rates_url (str_upper f)) = inr body ->
  json_loads body = inl msg ->
  convert_currency amount (PyStr f) to_currency tr
  = (inr ("Error converting currency: " ++ msg),
     (tr ++ [EvUrlOpen (rates_url (str_upper f))])%list).
Proof.
  intros Hnet Hjson.
  unfold convert_currency, convert_currency_body, try_except, bind, lift,
    http_get.
  simpl py_upper. cbv iota beta. rewrite Hnet, Hjson. reflexivity.
Qed.

Lemma convert_currency_no_rates (amount to_currency : pyval)
  (f : string) (tr : trace) (body : string) (data : pyval) :
  urlopen_read tr (rates_url (str_upper f)) = inr body ->
  json_loads body = inr data ->
  py_contains "rates" data = inr false ->
  convert_currency amount (PyStr f) to_currency tr
  = (inr "Error: Could not fetch exchange rates",
     (tr ++ [EvUrlOpen (rates_url (str_upper f))])%list).
Proof.
  intros Hnet Hjson Hin.
  unfold convert_currency, convert_currency_body, try_except, bind, lift,
    http_get.
  simpl py_upper. cbv iota beta. rewrite Hnet, Hjson. unfold ret at 1.
  rewrite Hin. reflexivity.
Qed.

Lemma dict_mem_get {V : Type} (k : string) (d : list (string * V)) (v : V) :
  dict_get k d = Some v -> dict_mem k d = true.
Proof. unfold dict_mem. now intros ->. Qed.

Lemma convert_currency_no_rate (amount : pyval) (f t : string) (tr : trace)
  (body : string) (d rates : list (string * pyval)) :
  urlopen_read tr (rates_url (str_upper f)) = inr body ->
  json_loads body = inr (PyDict d) ->
  dict_get "rates" d = Some (PyDict rates) ->
  dict_get (str_upper t) rates = None ->
  convert_currency amount (PyStr f) (PyStr t) tr
  = (inr ("Error: No rate found for " ++ t),
     (tr ++ [EvUrlOpen (rates_url (str_upper f))])%list).
Proof.
  intros Hnet Hjson Hrates Hrate.
  unfold convert_currency, convert_currency_body, try_except, bind, lift,
    http_get.
  simpl py_upper. cbv iota beta. rewrite Hnet, Hjson. unfold ret at 1.
  simpl py_contains. rewrite (dict_mem_get _ _ _ Hrates).
  cbn. rewrite Hrates. cbn. rewrite Hrate. reflexivity.
Qed.

Lemma convert_currency_converts (amount : pyval) (f t : string) (tr : trace)
  (body : string) (d rates : list (string * pyval)) (rate converted : pyval)
  (shown : string) :
  urlopen_read tr (rates_url (str_upper f)) = inr body ->
  json_loads body = inr (PyDict d) ->
  dict_get "rates" d = Some (PyDict rates) ->
  dict_get (str_upper t) rates = Some rate ->
  truthy rate = true ->
  py_mul amount rate = inr converted ->
  py_format_2f converted = inr shown ->
  convert_currency amount (PyStr f) (PyStr t) tr
  = (inr (py_str amount ++ " " ++ str_upper f ++ " = " ++ shown
          ++ " " ++ str_upper t),
     (tr ++ [EvUrlOpen (rates_url (str_upper f))])%list).
Proof.
  intros Hnet Hjson Hrates Hrate Htrue Hmul Hfmt.
  unfold convert_currency, convert_currency_body, try_except, bind, lift,
    http_get.
  simpl py_upper. cbv iota beta. rewrite Hnet, Hjson. unfold ret at 1.
  simpl py_contains. rewrite (dict_mem_get _ _ _ Hrates).
  cbn. rewrite Hrates. cbn. rewrite Hrate, Htrue. cbn.
  rewrite Hmul, Hfmt. reflexivity.
Qed.

End ToolUseFacts.

Section ToolUseClaims.
Context {RT : PyRuntime} {W : World}.
Import ToolUse.

(** C4. [convert_currency] never raises, whatever its three arguments and
    whatever the endpoint does: every exception of its body comes back as
    the string ["Error converting currency: ..."]; a network failure and an
    undecodable body are such exceptions; a reply without ["rates"] and a
    rate table without the destination code give their own error strings;
    and on success the converted value is rendered by the two-decimal
    format, which for every finite value ends in a point and two digits. *)
Theorem convert_currency_never_raises
  (amount from_currency to_currency : pyval) (tr : trace) :
  (exists s tr',
      convert_currency amount from_currency to_currency tr = (inr s, tr'))
  /\
  (forall e tr',
      convert_currency_body amount from_currency to_currency tr = (inl e, tr') ->
      convert_currency amount from_currency to_currency tr
      = (inr ("Error converting currency: " ++ str_exn e), tr'))
  /\
  (forall f e,
      from_currency = PyStr f ->
      urlopen_read tr (rates_url (str_upper f)) = inl e ->
      convert_currency amount from_currency to_currency tr
      = (inr ("Error converting currency: " ++ str_exn e),
         (tr ++ [EvUrlOpen (rates_url (str_upper f))])%list))
  /\
  (forall f body msg,
      from_currency = PyStr f ->
      urlopen_read tr (rates_url (str_upper f)) = inr body ->
      json_loads body = inl msg ->
      convert_currency amount from_currency to_currency tr
      = (inr ("Error converting currency: " ++ msg),
         (tr ++ [EvUrlOpen (rates_url (str_upper f))])%list))
  /\
  (forall f body data,
      from_currency = PyStr f ->
      urlopen_read tr (rates_url (str_upper f)) = inr body ->
      json_loads body = inr data ->
      py_contains "rates" data = inr false ->
      convert_currency amount from_currency to_currency tr
      = (inr "Error: Could not fetch exchange rates",
         (tr ++ [EvUrlOpen (rates_url (str_upper f))])%list))
  /\
  (forall f t body d rates,
      from_currency = PyStr f ->
      to_currency = PyStr t ->
      urlopen_read tr (rates_url (str_upper f)) = inr body ->
      json_loads body = inr (PyDict d) ->
      dict_get "rates" d = Some (PyDict rates) ->
      dict_get (str_upper t) rates = None ->
      convert_currency amount from_currency to_currency tr
      = (inr ("Error: No rate found for " ++ t),
         (tr ++ [EvUrlOpen (rates_url (str_upper f))])%list))
  /\
  (forall f t body d rates rate converted shown,
      from_currency = PyStr f ->
      to_currency = PyStr t ->
      urlopen_read tr (rates_url (str_upper f)) = inr body ->
      json_loads body = inr (PyDict d) ->
      dict_get "rates" d = Some (PyDict rates) ->
      dict_get (str_upper t) rates = Some rate ->
      truthy rate = true ->
      py_mul amount rate = inr converted ->
      py_format_2f converted = inr shown ->
      convert_currency amount from_currency to_currency tr
      = (inr (py_str amount ++ " " ++ str_upper f ++ " = " ++ shown
              ++ " " ++ str_upper t),
         (tr ++ [EvUrlOpen (rates_url (str_upper f))])%list)
      /\ exists x, shown = format_2f x
                   /\ (is_finite x = true -> two_decimals shown)).
Proof.
  split; [apply convert_currency_total|].
  split.
  { intros e tr' Hbody. unfold convert_currency.
    now rewrite (try_except_raise _ _ _ _ _ Hbody). }
  split.
  { intros f e -> Hnet. now apply convert_currency_network_failure. }
  split.
  { intros f body msg -> Hnet Hjson.
    now apply convert_currency_bad_json with (body := body). }
  split.
  { intros f body data -> Hnet Hjson Hin.
    now apply convert_currency_no_rates with (body := body) (data := data). }
  split.
  { intros f t body d rates -> -> Hnet Hjson Hrates Hrate.
    now apply convert_currency_no_rate
      with (body := body) (d := d) (rates := rates). }
  intros f t body d rates rate converted shown -> -> Hnet Hjson Hrates Hrate
    Htrue Hmul Hfmt.
  split.
  - now apply convert_currency_converts
      with (body := body) (d := d) (rates := rates) (rate := rate)
           (converted := converted).
  - now apply py_format_2f_inv with (v := converted).
Qed.

Lemma expect_strs_strs (steps : list string) :
  expect_strs (map PyStr steps) = inr steps.
Proof.
  induction steps as [|s steps IH]; simpl; auto. now rewrite IH.
Qed.

Lemma py_join_strs (sep : string) (steps : list string) :
  py_join sep (strs steps) = inr (String.concat sep steps).
Proof.
  unfold py_join, strs. simpl py_iter. cbv iota beta.
  now rewrite expect_strs_strs.
Qed.

(** The loop realises [calls_run], appending to what it was given. *)
Lemma run_tool_calls_spec (self : Agent) (calls : list pyval)
  (tr tr' : trace) (results : list string) :
  calls_run self calls tr results tr' ->
  forall acc,
    run_tool_calls self calls acc tr = (inr (acc ++ results)%list, tr').
Proof.
  induction 1 as [tr|call rest n args T r rs tr tr1 tr2
                    Htool Hargs Hself Hname Hget Hfunc _ IH];
    intros acc.
  - simpl. unfold ret. now rewrite app_nil_r.
  - simpl run_tool_calls. unfold bind at 1, lift at 1. rewrite Htool.
    unfold bind at 1, lift at 1. rewrite Hargs.
    unfold bind at 1, lift at 1, bind_use_tool_kwargs.
    simpl py_kwargs. cbv iota beta. rewrite Hself, Hname.
    simpl orb. cbv iota beta.
    unfold bind at 1, use_tool. rewrite Hget.
    unfold bind at 1, emit. rewrite Hfunc.
    rewrite IH. now rewrite <- app_assoc.
Qed.

Lemma execute_tools_spec (self : Agent) (d : list (string * pyval))
  (calls : list pyval) (thought : pyval) (steps results : list string)
  (tr tr' : trace) :
  dict_get "tool_calls" d = Some (PyList calls) ->
  dict_get "thought" d = Some thought ->
  dict_get "plan" d = Some (strs steps) ->
  calls_run self calls tr results tr' ->
  execute_tools self (PyDict d) tr
  = (inr (PyStr (render_results thought (String.concat ". " steps) results)),
     tr').
Proof.
  intros Hcalls Hthought Hsteps Hrun.
  unfold execute_tools.
  unfold bind at 1, lift at 1. simpl py_getitem. rewrite Hcalls.
  unfold bind at 1, lift at 1. simpl py_iter. cbv iota beta.
  unfold bind at 1. rewrite (run_tool_calls_spec _ _ _ _ _ Hrun). simpl app.
  unfold bind at 1, lift at 1. rewrite Hthought.
  unfold bind at 1, lift at 1. rewrite Hsteps.
  unfold bind at 1, lift at 1. rewrite py_join_strs.
  reflexivity.
Qed.

End ToolUseClaims.

Section ToolExecutionClaims.
Context {RT : PyRuntime} {W : World}.
Import ToolUse.

Lemma conversion_call_runs (self : Agent) (tr : trace) (body : string)
  (d : list (string * pyval)) :
  dict_get "convert_currency" (tools self) = Some convert_currency_tool ->
  urlopen_read
    (tr ++ [EvTool "convert_currency"
              [("amount", PyInt 100); ("from_currency", PyStr "USD");
               ("to_currency", PyStr "EUR")]])%list
    (rates_url "USD") = inr body ->
  json_loads body = inr (PyDict d) ->
  dict_get "rates" d = Some (PyDict [("EUR", PyFloat nine_tenths)]) ->
  exists tr',
    calls_run self
      [PyDict
         [("tool", PyStr "convert_currency");
          ("args",
            PyDict
              [("amount", PyInt 100); ("from_currency", PyStr "USD");
               ("to_currency", PyStr "EUR")])]]
      tr ["100 USD = 90.00 EUR"] tr'.
Proof.
  intros Hget Hnet Hjson Hrates.
  eexists. eapply calls_run_cons; try reflexivity; try exact Hget.
  2: apply calls_run_nil.
  simpl func. unfold bind at 1, lift at 1. simpl bind_convert_currency.
  cbv iota beta.
  apply (convert_currency_converts (PyInt 100) "USD" "EUR" _ body d
           [("EUR", PyFloat nine_tenths)] (PyFloat nine_tenths)
           (PyFloat (float_mul (float_of_Z 100) nine_tenths)) "90.00");
    auto.
Qed.

(** C3. When the plan requires tools, [execute] runs the plan's tool
    calls one at a time in the order listed, collects their string results
    in that order, and returns the thought, the steps joined by [". "] and
    the results joined by [". "].  In the conversion scenario (the plan
    asks [convert_currency] for 100 USD in EUR and the endpoint serves the
    rate 0.9) the returned string contains ["100 USD = 90.00 EUR"]. *)
Theorem execute_runs_tool_calls_in_order (q : string) (tr : trace) :
  (forall self reply d flag calls thought steps results tr',
      llm tr (plan_request self q) = inr reply ->
      json_loads reply = inr (PyDict d) ->
      dict_get "requires_tools" d = Some flag ->
      truthy flag = true ->
      dict_get "tool_calls" d = Some (PyList calls) ->
      dict_get "thought" d = Some thought ->
      dict_get "plan" d = Some (strs steps) ->
      calls_run self calls (tr ++ [EvChat (plan_request self q)])%list
                results tr' ->
      execute self q tr
      = (inr (PyStr ("Thought: " ++ py_str thought ++ nl ++
                     "Plan: " ++ String.concat ". " steps ++ nl ++
                     "Results: " ++ String.concat ". " results)),
         tr'))
  /\
  (forall reply thought steps body d,
      let self := add_tool new_agent convert_currency_tool in
      llm tr (plan_request self q) = inr reply ->
      json_loads reply = inr (conversion_plan thought steps) ->
      (forall h, urlopen_read h (rates_url "USD") = inr body) ->
      json_loads body = inr (PyDict d) ->
      dict_get "rates" d = Some (PyDict [("EUR", PyFloat nine_tenths)]) ->
      exists out tr',
        execute self q tr = (inr (PyStr out), tr')
        /\ out = "Thought: " ++ thought ++ nl ++
                 "Plan: " ++ String.concat ". " steps ++ nl ++
                 "Results: 100 USD = 90.00 EUR"
        /\ occurs_in "100 USD = 90.00 EUR" out).
Proof.
  assert (General :
    forall self reply d flag calls thought steps results tr',
      llm tr (plan_request self q) = inr reply ->
      json_loads reply = inr (PyDict d) ->
      dict_get "requires_tools" d = Some flag ->
      truthy flag = true ->
      dict_get "tool_calls" d = Some (PyList calls) ->
      dict_get "thought" d = Some thought ->
      dict_get "plan" d = Some (strs steps) ->
      calls_run self calls (tr ++ [EvChat (plan_request self q)])%list
                results tr' ->
      execute self q tr
      = (inr (PyStr (render_results thought (String.concat ". " steps)
                       results)),
         tr')).
  { intros self reply d flag calls thought steps results tr'
      Hllm Hjson Hflag Htrue Hcalls Hthought Hsteps Hrun.
    unfold execute. apply try_except_ok.
    rewrite (execute_body_planned _ _ _ _ _ Hllm Hjson).
    rewrite (execute_plan_with_tools _ _ _ _ Hflag Htrue).
    now apply execute_tools_spec with (calls := calls). }
  split; [exact General|].
  intros reply thought steps body d self Hllm Hjson Hnet Hbody Hrates.
  destruct (conversion_call_runs self
              (tr ++ [EvChat (plan_request self q)])%list body d)
    as [tr' Hrun]; auto.
  exists ("Thought: " ++ thought ++ nl ++
          "Plan: " ++ String.concat ". " steps ++ nl ++
          "Results: 100 USD = 90.00 EUR"), tr'.
  split; [|split; [reflexivity|]].
  - erewrite (General self reply); cycle 1;
      [exact Hllm | exact Hjson | reflexivity | reflexivity | reflexivity
      | reflexivity | reflexivity | exact Hrun | reflexivity].
  - exists ("Thought: " ++ thought ++ nl ++
            "Plan: " ++ String.concat ". " steps ++ nl ++ "Results: "),
      EmptyString.
    rewrite !string_app_assoc. reflexivity.
Qed.


End ToolExecutionClaims.

(** ** The reflecting executor *)

Section ReflectionFacts.
Context {RT : PyRuntime} {W : World}.
Import Reflection.

Lemma last_item_snoc {A : Type} (l : list A) (x : A) :
  last_item (l ++ [x])%list = Some x.
Proof.
  induction l as [|y l IH]; simpl; auto.
  rewrite IH. destruct (l ++ [x])%list eqn:E; auto.
  destruct l; discriminate.
Qed.

Lemma set_last_snoc {A : Type} (f : A -> A) (l : list A) (x : A) :
  set_last f (l ++ [x])%list = (l ++ [f x])%list.
Proof.
  induction l as [|y l IH]; simpl; auto.
  rewrite IH. destruct (l ++ [x])%list eqn:E; auto.
  destruct l; discriminate.
Qed.

Lemma plan_outcome (q : string) (s : state) :
  plan q s =
  match llm (history s) (plan_request (self s) q) with
  | inl e => (inl e, with_history s (after_plan s q))
  | inr reply =>
      match json_loads reply with
      | inl _ => (inl (ValueError "Failed to parse LLM response as JSON"),
                  with_history s (after_plan s q))
      | inr p => (inr p,
                  remembering s (planned_interaction s q p) (after_plan s q))
      end
  end.
Proof.
  unfold plan, bind, get_self, on_world, chat_completion. cbn.
  destruct (llm (history s) (plan_request (self s) q)) as [e|reply];
    [reflexivity|].
  destruct (json_loads reply) as [msg|p]; reflexivity.
Qed.

Lemma reflect_on_empty (s : state) :
  last_item (interactions (self s)) = None ->
  reflect_on_plan s = (inr no_plan_to_reflect_on, s).
Proof.
  intros Hnone. unfold reflect_on_plan, bind, get_self.
  rewrite Hnone. reflexivity.
Qed.

Lemma reflect_outcome (s : state) (latest : Interaction.t) :
  last_item (interactions (self s)) = Some latest ->
  reflect_on_plan s =
  let h := (history s ++ [EvChat (reflect_request (self s) latest)])%list in
  match llm (history s) (reflect_request (self s) latest) with
  | inl e => (inl e, with_history s h)
  | inr reply =>
      (inr (match json_loads reply with
            | inr r => r
            | inl _ => PyDict [("reflection", PyStr reply)]
            end),
       with_history s h)
  end.
Proof.
  intros Hlast. unfold reflect_on_plan, bind, get_self. rewrite Hlast.
  unfold on_world, chat_completion. cbn.
  destruct (llm (history s) (reflect_request (self s) latest)) as [e|reply];
    [reflexivity|].
  destruct (json_loads reply); reflexivity.
Qed.

Lemma revise_outcome (q : string) (p r : pyval) (s : state) :
  revise q p r s =
  let h := (history s ++ [EvChat (revision_request (self s) q p r)])%list in
  match llm (history s) (revision_request (self s) q p r) with
  | inl e => (inl e, with_history s h)
  | inr reply =>
      (inr (match json_loads reply with
            | inr p' => p'
            | inl _ => p
            end),
       with_history s h)
  end.
Proof.
  unfold revise, bind, get_self, on_world, chat_completion. cbn.
  destruct (llm (history s) (revision_request (self s) q p r)) as [e|reply];
    [reflexivity|].
  destruct (json_loads reply); reflexivity.
Qed.

Lemma update_latest_outcome (s : state) (i : Interaction.t) (h : trace)
  (p : pyval) :
  update_latest_plan p (remembering s i h)
  = (inr tt, remembering s (Interaction.set_plan i p) h).
Proof.
  unfold update_latest_plan, bind, get_self. cbn.
  rewrite last_item_snoc. unfold set_interactions. cbn.
  now rewrite set_last_snoc.
Qed.

(** Rendering is pure: it leaves the state as it found it. *)
Lemma render_pure (initial reflection final : pyval) (s : state) :
  exists r, render initial reflection final s = (r, s).
Proof.
  unfold render, render_with_tools, render_direct, bind, lift, ret.
  repeat match goal with
         | |- context [match ?x with _ => _ end] => destruct x
         end; eauto.
Qed.

Lemma update_latest_history (p : pyval) (s : state) :
  history (snd (update_latest_plan p s)) = history s.
Proof.
  unfold update_latest_plan, bind, get_self, set_interactions, raise. cbn.
  destruct (last_item (interactions (self s))); reflexivity.
Qed.

(** After the plan, the reflection and the possible revision, nothing in
    [execute]'s body touches the world any more. *)
Lemma finish_history (initial reflection final : pyval) (s : state) :
  history
    (snd (bind (update_latest_plan (stored_plan initial reflection final))
               (fun _ => render initial reflection final) s))
  = history s.
Proof.
  unfold bind.
  pose proof (update_latest_history (stored_plan initial reflection final) s)
    as Hupd.
  destruct (update_latest_plan (stored_plan initial reflection final) s)
    as [[e|u] s1]; simpl in *; auto.
  destruct (render_pure initial reflection final s1) as [r Hr].
  now rewrite Hr.
Qed.

(** The history [execute]'s body leaves behind. *)
Lemma execute_body_history (q : string) (s : state) :
  run_shape s q (history (snd (execute_body q s))).
Proof.
  unfold execute_body. unfold bind at 1. rewrite plan_outcome.
  destruct (llm (history s) (plan_request (self s) q)) as [e|reply1];
    [now left|].
  destruct (json_loads reply1) as [msg|p]; [now left|].
  unfold bind at 1.
  rewrite (reflect_outcome _ (planned_interaction s q p))
    by apply last_item_snoc.
  cbn zeta.
  destruct (llm _ _) as [e|reply2]; [right; left; now exists p|].
  set (r := match json_loads reply2 with
            | inl _ => PyDict [("reflection", PyStr reply2)]
            | inr r => r
            end).
  unfold bind at 1, lift at 1.
  destruct (py_get r "requires_changes" (PyBool false)) as [e|flag];
    [right; left; now exists p|].
  unfold bind at 1.
  destruct (truthy flag).
  - rewrite revise_outcome. cbn zeta.
    destruct (llm _ _) as [e|reply3];
      [right; right; now exists p, r|].
    rewrite finish_history. right; right. now exists p, r.
  - unfold ret at 1. rewrite finish_history.
    right; left. now exists p.
Qed.

Lemma execute_history (q : string) (s : state) :
  exists v s', execute q s = (inr v, s') /\ run_shape s q (history s').
Proof.
  pose proof (execute_body_history q s) as Hbody.
  unfold execute, try_except.
  destruct (execute_body q s) as [[e|v] s1]; simpl in Hbody;
    unfold ret; eauto.
Qed.

Lemma run_shape_events (s : state) (q : string) (h : trace) :
  run_shape s q h ->
  exists evs,
    h = (history s ++ evs)%list
    /\ (evs = [plan_event s q]
        \/ (exists p, evs = [plan_event s q; reflect_event s q p])
        \/ (exists p r, evs = [plan_event s q; reflect_event s q p;
                               revision_event s q p r])).
Proof.
  intros [H|[[p H]|[p [r H]]]]; subst h.
  - exists [plan_event s q]. split; auto.
  - exists [plan_event s q; reflect_event s q p]. split.
    + unfold after_reflect, after_plan. now rewrite <- app_assoc.
    + right; left. now exists p.
  - exists [plan_event s q; reflect_event s q p; revision_event s q p r].
    split.
    + unfold after_revision, after_reflect, after_plan.
      now rewrite <- !app_assoc.
    + right; right. now exists p, r.
Qed.

Lemma reflect_outcome_remembering (s : state) (i : Interaction.t)
  (h : trace) :
  reflect_on_plan (remembering s i h) =
  let h' := (h ++ [EvChat (reflect_request (self s) i)])%list in
  match llm h (reflect_request (self s) i) with
  | inl e => (inl e, remembering s i h')
  | inr reply =>
      (inr (match json_loads reply with
            | inr r => r
            | inl _ => PyDict [("reflection", PyStr reply)]
            end),
       remembering s i h')
  end.
Proof.
  rewrite (reflect_outcome _ i) by apply last_item_snoc. reflexivity.
Qed.

Lemma revise_outcome_remembering (q : string) (p r : pyval) (s : state)
  (i : Interaction.t) (h : trace) :
  revise q p r (remembering s i h) =
  let h' := (h ++ [EvChat (revision_request (self s) q p r)])%list in
  match llm h (revision_request (self s) q p r) with
  | inl e => (inl e, remembering s i h')
  | inr reply =>
      (inr (match json_loads reply with
            | inr p' => p'
            | inl _ => p
            end),
       remembering s i h')
  end.
Proof. rewrite revise_outcome. reflexivity. Qed.

(** The body of [execute] when the reflection does not ask for changes:
    the final plan is the initial plan and no further request is made. *)
Lemma execute_body_unrevised (q : string) (s : state) (reply1 reply2 : string)
  (p reflection flag : pyval) :
  llm (history s) (plan_request (self s) q) = inr reply1 ->
  json_loads reply1 = inr p ->
  llm (after_plan s q) (reflect_request (self s) (planned_interaction s q p))
  = inr reply2 ->
  reflection = match json_loads reply2 with
               | inr r => r
               | inl _ => PyDict [("reflection", PyStr reply2)]
               end ->
  py_get reflection "requires_changes" (PyBool false) = inr flag ->
  truthy flag = false ->
  execute_body q s
  = render p reflection p
      (remembering s
         (Interaction.set_plan (planned_interaction s q p)
            (stored_plan p reflection p))
         (after_reflect s q p)).
Proof.
  intros Hllm1 Hjson1 Hllm2 Hrefl Hget Hflag.
  unfold execute_body. unfold bind at 1.
  rewrite plan_outcome, Hllm1, Hjson1.
  unfold bind at 1. rewrite reflect_outcome_remembering. cbn zeta.
  rewrite Hllm2, <- Hrefl.
  unfold bind at 1, lift at 1. rewrite Hget.
  unfold bind at 1. rewrite Hflag. unfold ret at 1.
  unfold bind at 1. rewrite update_latest_outcome. reflexivity.
Qed.

(** The body of [execute] when the reflection asks for changes: one
    revision request, whose reply is the final plan, or the initial plan
    when the reply is not JSON. *)
Lemma execute_body_revised (q : string) (s : state)
  (reply1 reply2 reply3 : string) (p reflection flag final : pyval) :
  llm (history s) (plan_request (self s) q) = inr reply1 ->
  json_loads reply1 = inr p ->
  llm (after_plan s q) (reflect_request (self s) (planned_interaction s q p))
  = inr reply2 ->
  reflection = match json_loads reply2 with
               | inr r => r
               | inl _ => PyDict [("reflection", PyStr reply2)]
               end ->
  py_get reflection "requires_changes" (PyBool false) = inr flag ->
  truthy flag = true ->
  llm (after_reflect s q p) (revision_request (self s) q p reflection)
  = inr reply3 ->
  final = match json_loads reply3 with
          | inr p' => p'
          | inl _ => p
          end ->
  execute_body q s
  = render p reflection final
      (remembering s
         (Interaction.set_plan (planned_interaction s q p)
            (stored_plan p reflection final))
         (after_revision s q p reflection)).
Proof.
  intros Hllm1 Hjson1 Hllm2 Hrefl Hget Hflag Hllm3 Hfinal.
  unfold execute_body. unfold bind at 1.
  rewrite plan_outcome, Hllm1, Hjson1.
  unfold bind at 1. rewrite reflect_outcome_remembering. cbn zeta.
  rewrite Hllm2, <- Hrefl.
  unfold bind at 1, lift at 1. rewrite Hget.
  unfold bind at 1. rewrite Hflag.
  rewrite revise_outcome_remembering. cbn zeta.
  unfold after_reflect, reflect_event in Hllm3. rewrite Hllm3, <- Hfinal.
  unfold bind at 1. rewrite update_latest_outcome. reflexivity.
Qed.

(** [execute] returns what the rendering returns, or the error string the
    rendering's exception turns into; the state is the rendering's. *)
Lemma execute_of_body (q : string) (s s1 : state)
  (m : M state pyval) :
  execute_body q s = m s1 ->
  (exists r, m s1 = (r, s1)) ->
  exists v, execute q s = (inr v, s1)
            /\ (forall out, m s1 = (inr out, s1) -> v = out).
Proof.
  intros Hbody [r Hr]. unfold execute, try_except. rewrite Hbody, Hr.
  destruct r as [e|out].
  - eexists. split; [reflexivity|]. intros out Hout. discriminate.
  - exists out. split; [reflexivity|]. intros out' Hout. congruence.
Qed.

End ReflectionFacts.

Section ReflectionClaims.
Context {RT : PyRuntime} {W : World}.
Import Reflection.

Lemma plan_event_not_revision (s : state) (q : string) :
  is_revision_request (plan_event s q) = false.
Proof. reflexivity. Qed.

Lemma reflect_event_not_revision (s : state) (q : string) (p : pyval) :
  is_revision_request (reflect_event s q p) = false.
Proof. reflexivity. Qed.

Lemma prefix_app (p rest : string) : String.prefix p (p ++ rest) = true.
Proof.
  induction p as [|c p IH]; simpl.
  - now destruct rest.
  - destruct (ascii_dec c c); [exact IH|contradiction].
Qed.

Lemma revision_event_is_revision (s : state) (q : string) (p r : pyval) :
  is_revision_request (revision_event s q p r) = true.
Proof.
  unfold is_revision_request, revision_event, revision_request.
  cbn [messages role content]. now rewrite prefix_app.
Qed.

(** C5. One execution of the reflecting agent sends the plan request,
    then possibly the reflection request, then possibly one revision
    request, and nothing after it: at most one revision request, whatever
    the model replies. *)
Theorem at_most_one_revision (q : string) (s : state) :
  exists v s' evs,
    execute q s = (inr v, s')
    /\ history s' = (history s ++ evs)%list
    /\ (evs = [plan_event s q]
        \/ (exists p, evs = [plan_event s q; reflect_event s q p])
        \/ (exists p r, evs = [plan_event s q; reflect_event s q p;
                               revision_event s q p r]))
    /\ length (filter is_revision_request evs) <= 1
    /\ length (filter is_chat evs) <= 3.
Proof.
  destruct (execute_history q s) as [v [s' [Hexec Hshape]]].
  destruct (run_shape_events _ _ _ Hshape) as [evs [Hh Hevs]].
  exists v, s', evs. repeat split; auto.
  - destruct Hevs as [->|[[p ->]|[p [r ->]]]]; cbn [filter];
      rewrite ?plan_event_not_revision, ?reflect_event_not_revision,
        ?revision_event_is_revision; cbn [length]; lia.
  - destruct Hevs as [->|[[p ->]|[p [r ->]]]]; cbn; lia.
Qed.

(** C7. Whatever the query and the model's replies, every event of an
    execution of the reflecting agent is a model request: no tool is
    invoked and no HTTP request is made. *)
Theorem reflection_never_invokes_tools (q : string) (s : state) :
  exists v s' evs,
    execute q s = (inr v, s')
    /\ history s' = (history s ++ evs)%list
    /\ Forall (fun ev => is_chat ev = true) evs
    /\ (forall n kwargs, ~ In (EvTool n kwargs) evs)
    /\ (forall url, ~ In (EvUrlOpen url) evs).
Proof.
  destruct (execute_history q s) as [v [s' [Hexec Hshape]]].
  destruct (run_shape_events _ _ _ Hshape) as [evs [Hh Hevs]].
  exists v, s', evs.
  assert (Hchat : Forall (fun ev => is_chat ev = true) evs).
  { destruct Hevs as [->|[[p ->]|[p [r ->]]]];
      repeat constructor. }
  repeat split; auto.
  - intros n kwargs Hin.
    rewrite Forall_forall in Hchat. apply Hchat in Hin. discriminate.
  - intros url Hin.
    rewrite Forall_forall in Hchat. apply Hchat in Hin. discriminate.
Qed.

(** C8. With an empty working memory [reflect_on_plan] returns the neutral
    reflection, whose [requires_changes] is [False], and leaves the state,
    history included, as it was: no model request is made. *)
Theorem reflect_on_empty_memory (s : state) :
  interactions (self s) = [] ->
  reflect_on_plan s = (inr no_plan_to_reflect_on, s)
  /\ py_getitem no_plan_to_reflect_on "requires_changes" = inr (PyBool false)
  /\ py_getitem no_plan_to_reflect_on "reflection"
     = inr (PyStr "No plan to reflect on")
  /\ history (snd (reflect_on_plan s)) = history s.
Proof.
  intros Hempty.
  assert (Hrun : reflect_on_plan s = (inr no_plan_to_reflect_on, s)).
  { apply reflect_on_empty. now rewrite Hempty. }
  repeat split; auto. now rewrite Hrun.
Qed.

(** C9. When the reflection reply is not valid JSON, [reflect_on_plan]
    returns a reflection that holds the raw reply under ["reflection"] and
    has no ["requires_changes"]; [execute], reading the flag with default
    [False], then makes no revision request and keeps the initial plan as
    the final one. *)
Theorem unparsable_reflection_degrades :
  (forall s latest reply msg,
      last_item (interactions (self s)) = Some latest ->
      llm (history s) (reflect_request (self s) latest) = inr reply ->
      json_loads reply = inl msg ->
      reflect_on_plan s
      = (inr (PyDict [("reflection", PyStr reply)]),
         with_history s
           (history s ++ [EvChat (reflect_request (self s) latest)])%list)
      /\ dict_get "requires_changes" [("reflection", PyStr reply)] = None
      /\ py_get (PyDict [("reflection", PyStr reply)]) "requires_changes"
           (PyBool false) = inr (PyBool false))
  /\
  (forall q s reply1 p reply2 msg,
      llm (history s) (plan_request (self s) q) = inr reply1 ->
      json_loads reply1 = inr p ->
      llm (after_plan s q)
          (reflect_request (self s) (planned_interaction s q p))
      = inr reply2 ->
      json_loads reply2 = inl msg ->
      exists v s',
        execute q s = (inr v, s')
        /\ history s' = after_reflect s q p
        /\ interactions (self s')
           = (interactions (self s)
              ++ [Interaction.Make (now (after_plan s q)) q
                    (stored_plan p (PyDict [("reflection", PyStr reply2)])
                       p)])%list).
Proof.
  split.
  - intros s latest reply msg Hlast Hllm Hjson.
    rewrite (reflect_outcome _ _ Hlast). cbn zeta.
    rewrite Hllm, Hjson. auto.
  - intros q s reply1 p reply2 msg Hllm1 Hjson1 Hllm2 Hjson2.
    pose proof (execute_body_unrevised q s reply1 reply2 p
                  (PyDict [("reflection", PyStr reply2)]) (PyBool false)
                  Hllm1 Hjson1 Hllm2) as Hbody.
    rewrite Hjson2 in Hbody.
    specialize (Hbody eq_refl eq_refl eq_refl).
    destruct (execute_of_body _ _ _ _ Hbody (render_pure _ _ _ _))
      as [v [Hexec _]].
    eexists. eexists. split; [exact Hexec|]. split; reflexivity.
Qed.

End ReflectionClaims.

Section FallbackClaims.
Context {RT : PyRuntime} {W : World}.
Import Reflection.

Lemma occurs_in_app_r (sub s pre : string) :
  occurs_in sub s -> occurs_in sub (pre ++ s).
Proof.
  intros [a [b ->]]. exists (pre ++ a), b.
  now rewrite !string_app_assoc.
Qed.

Lemma occurs_in_concat (sep step : string) (steps : list string) :
  In step steps -> occurs_in step (String.concat sep steps).
Proof.
  induction steps as [|x rest IH]; intros Hin; [contradiction|].
  destruct Hin as [->|Hin].
  - destruct rest as [|y rest'].
    + exists EmptyString, EmptyString. simpl.
      clear. induction step; simpl; congruence.
    + exists EmptyString, (sep ++ String.concat sep (y :: rest')).
      reflexivity.
  - destruct rest as [|y rest']; [contradiction|].
    change (String.concat sep (x :: y :: rest'))
      with (x ++ sep ++ String.concat sep (y :: rest')).
    destruct (IH Hin) as [a [b Heq]]. rewrite Heq.
    exists (x ++ sep ++ a), b. now rewrite !string_app_assoc.
Qed.

(** The summary rendered for a final plan that requires tools. *)
Lemma render_requiring_tools (d fd rd : list (string * pyval))
  (flag thought : pyval) (steps fsteps : list string) (s : state) :
  dict_get "requires_tools" fd = Some flag ->
  truthy flag = true ->
  dict_get "thought" d = Some thought ->
  dict_get "plan" d = Some (strs steps) ->
  dict_get "plan" fd = Some (strs fsteps) ->
  render (PyDict d) (PyDict rd) (PyDict fd) s
  = (inr (PyStr
            ("Initial Thought: " ++ py_str thought ++ nl ++
             "Initial Plan: " ++ String.concat ". " steps ++ nl ++
             "Reflection: "
             ++ py_str (match dict_get "reflection" rd with
                        | Some text => text
                        | None => PyStr "No improvements suggested"
                        end) ++ nl ++
             "Final Plan: " ++ String.concat ". " fsteps)),
     s).
Proof.
  intros Hflag Htrue Hthought Hsteps Hfsteps.
  unfold render, bind at 1, lift at 1, py_get, py_get_method.
  rewrite Hflag, Htrue.
  unfold render_with_tools.
  unfold bind at 1, lift at 1. simpl py_getitem. rewrite Hthought.
  unfold bind at 1, lift at 1. rewrite Hsteps.
  unfold bind at 1, lift at 1. rewrite py_join_strs.
  unfold bind at 1, lift at 1, reflection_text, py_get, py_get_method.
  unfold bind at 1, lift at 1. rewrite Hfsteps.
  unfold bind at 1, lift at 1. rewrite py_join_strs.
  reflexivity.
Qed.

(** C6. When the reflection asks for changes and the reply to the
    revision request is not valid JSON, the final plan stored with the
    interaction is the initial plan itself; and when that plan requires
    tools and carries a thought and a list of steps, the summary returned
    by [execute] contains every step of the initial plan. *)
Theorem revision_fallback (q : string) (s : state)
  (reply1 reply2 reply3 msg : string) (initial flag : pyval)
  (rd : list (string * pyval)) :
  llm (history s) (plan_request (self s) q) = inr reply1 ->
  json_loads reply1 = inr initial ->
  llm (after_plan s q)
      (reflect_request (self s) (planned_interaction s q initial))
  = inr reply2 ->
  json_loads reply2 = inr (PyDict rd) ->
  dict_get "requires_changes" rd = Some flag ->
  truthy flag = true ->
  llm (after_reflect s q initial)
      (revision_request (self s) q initial (PyDict rd))
  = inr reply3 ->
  json_loads reply3 = inl msg ->
  exists v s',
    execute q s = (inr v, s')
    /\ history s' = after_revision s q initial (PyDict rd)
    /\ interactions (self s')
       = (interactions (self s)
          ++ [Interaction.Make (now (after_plan s q)) q
                (stored_plan initial (PyDict rd) initial)])%list
    /\ py_getitem (stored_plan initial (PyDict rd) initial) "final_plan"
       = inr initial
    /\ (forall d tools_flag thought steps,
           initial = PyDict d ->
           dict_get "requires_tools" d = Some tools_flag ->
           truthy tools_flag = true ->
           dict_get "thought" d = Some thought ->
           dict_get "plan" d = Some (strs steps) ->
           exists out,
             v = PyStr out
             /\ forall step, In step steps -> occurs_in step out).
Proof.
  intros Hllm1 Hjson1 Hllm2 Hjson2 Hflag Htrue Hllm3 Hjson3.
  pose proof (execute_body_revised q s reply1 reply2 reply3 initial
                (PyDict rd) flag initial Hllm1 Hjson1 Hllm2) as Hbody.
  rewrite Hjson2, Hjson3 in Hbody.
  assert (Hget : py_get (PyDict rd) "requires_changes" (PyBool false)
                 = inr flag).
  { unfold py_get, py_get_method. now rewrite Hflag. }
  specialize (Hbody eq_refl Hget Htrue Hllm3 eq_refl).
  destruct (execute_of_body _ _ _ _ Hbody (render_pure _ _ _ _))
    as [v [Hexec Hout]].
  eexists. eexists. split; [exact Hexec|].
  split; [reflexivity|]. split; [reflexivity|]. split; [reflexivity|].
  intros d tools_flag thought steps -> Htools Htools_true Hthought Hsteps.
  eexists. split.
  - apply Hout.
    apply (render_requiring_tools d d rd tools_flag thought steps steps);
      auto.
  - intros step Hin.
    repeat apply occurs_in_app_r. now apply occurs_in_concat.
Qed.

End FallbackClaims.

Section DefaultFlagClaims.
Context {RT : PyRuntime} {W : World}.





End DefaultFlagClaims.

(** * Further properties of the code *)

(** ** Registering tools *)

Section RegistrationFacts.
Context {V : Type}.

Lemma dict_set_new (k : string) (v : V) (d : list (string * V)) :
  dict_get k d = None -> dict_set k v d = (d ++ [(k, v)])%list.
Proof.
  induction d as [|[k' v'] d IH]; simpl; auto.
  destruct (String.eqb k k'); [discriminate|].
  intros H. now rewrite IH.
Qed.

Lemma dict_set_keys_present (k : string) (v : V) (d : list (string * V)) :
  dict_mem k d = true -> dict_keys (dict_set k v d) = dict_keys d.
Proof.
  unfold dict_mem. induction d as [|[k' v'] d IH]; simpl; [discriminate|].
  destruct (String.eqb k k') eqn:E; simpl; auto.
  intros H. now rewrite IH.
Qed.

Lemma dict_get_none_keys (k : string) (d : list (string * V)) :
  dict_get k d = None <-> ~ In k (dict_keys d).
Proof.
  induction d as [|[k' v'] d IH]; simpl.
  - tauto.
  - destruct (String.eqb k k') eqn:E.
    + apply String.eqb_eq in E. subst. split; [discriminate|].
      intros H. exfalso. apply H. now left.
    + apply String.eqb_neq in E. rewrite IH. split.
      * intros H [Heq|Hin]; [congruence|contradiction].
      * intros H Hin. apply H. now right.
Qed.

Lemma dict_get_app_none (k : string) (d e : list (string * V)) :
  dict_get k (d ++ e)%list = None <->
  dict_get k d = None /\ dict_get k e = None.
Proof.
  induction d as [|[k' v'] d IH]; simpl.
  - tauto.
  - destruct (String.eqb k k'); [|exact IH].
    split; [discriminate|]. intros [H _]. discriminate.
Qed.

End RegistrationFacts.

Section RegistryInvariants.
Context {RT : PyRuntime}.
Import ToolUse.

Lemma dict_set_keyed (T : Tool) (d : list (string * Tool)) :
  Forall (fun kv => fst kv = name (snd kv)) d ->
  Forall (fun kv => fst kv = name (snd kv)) (dict_set (name T) T d).
Proof.
  induction d as [|[k' T'] d IH]; simpl; intros H.
  - now repeat constructor.
  - inversion H as [|? ? Hhd Htl]; subst.
    destruct (String.eqb (name T) k') eqn:E.
    + apply String.eqb_eq in E. constructor; auto.
    + constructor; auto.
Qed.

(** X1. Registering a tool and looking it up round-trip: after
    [add_tool], the tool's name finds exactly that tool, every other name
    finds what it found before, and a registry whose entries sit under
    their tools' names with no name twice stays that way. *)
Theorem add_tool_lookup (self : Agent) (T : Tool) :
  dict_get (name T) (tools (add_tool self T)) = Some T
  /\ (forall n, n <> name T ->
        dict_get n (tools (add_tool self T)) = dict_get n (tools self))
  /\ (keyed_by_name self -> keyed_by_name (add_tool self T))
  /\ (NoDup (dict_keys (tools self)) ->
      NoDup (dict_keys (tools (add_tool self T)))).
Proof.
  split; [apply dict_get_set_same|].
  split; [intros n Hne; now apply dict_get_set_other|].
  split; [apply dict_set_keyed|].
  intros Hnodup. simpl.
  destruct (dict_mem (name T) (tools self)) eqn:Hmem.
  - now rewrite dict_set_keys_present.
  - assert (Hnone : dict_get (name T) (tools self) = None).
    { unfold dict_mem in Hmem.
      destruct (dict_get (name T) (tools self)); [discriminate|auto]. }
    rewrite (dict_set_new _ _ _ Hnone).
    unfold dict_keys. rewrite map_app. simpl.
    apply NoDup_app; [exact Hnodup|repeat constructor; intros []|].
    intros k Hin [<-|[]].
    apply dict_get_none_keys in Hnone. contradiction.
Qed.

(** X2. Re-registering keeps the catalog's shape: a tool added under a
    name already present replaces the old entry where it stood, and a
    tool with a new name goes to the end. *)
Theorem add_tool_keys (self : Agent) (T : Tool) :
  dict_keys (tools (add_tool self T))
  = if dict_mem (name T) (tools self)
    then dict_keys (tools self)
    else (dict_keys (tools self) ++ [name T])%list.
Proof.
  simpl. destruct (dict_mem (name T) (tools self)) eqn:Hmem.
  - now apply dict_set_keys_present.
  - assert (Hnone : dict_get (name T) (tools self) = None).
    { unfold dict_mem in Hmem.
      destruct (dict_get (name T) (tools self)); [discriminate|auto]. }
    rewrite (dict_set_new _ _ _ Hnone).
    unfold dict_keys. now rewrite map_app.
Qed.

Lemma register_all_distinct (ts : list Tool) :
  forall self : Agent,
    NoDup (map name ts) ->
    (forall t, In t ts -> dict_get (name t) (tools self) = None) ->
    tools (register_all ts self)
    = (tools self ++ map (fun t => (name t, t)) ts)%list.
Proof.
  induction ts as [|t ts IH]; intros self Hnodup Hfresh; simpl.
  - now rewrite app_nil_r.
  - inversion Hnodup as [|? ? Hnotin Hrest]; subst.
    rewrite IH; auto.
    + simpl. rewrite (dict_set_new _ _ _ (Hfresh t (or_introl eq_refl))).
      now rewrite <- app_assoc.
    + intros t' Hin. simpl.
      rewrite dict_get_set_other.
      * apply Hfresh. now right.
      * intros Heq. apply Hnotin. rewrite <- Heq. now apply in_map.
Qed.

(** X3. The catalog lists exactly the registered tools in registration
    order: for tools with pairwise distinct names registered on a new
    agent, [get_available_tools] is their ["name: description"] lines in
    that order, and the ["tools"] entry of the system prompt's JSON is
    their descriptions in that order. *)
Theorem catalog_in_registration_order (ts : list Tool) :
  NoDup (map name ts) ->
  get_available_tools (register_all ts new_agent)
  = map (fun t => name t ++ ": " ++ description t) ts
  /\ py_getitem (tools_json (register_all ts new_agent)) "tools"
     = inr (PyList (map tool_json ts)).
Proof.
  intros Hnodup.
  assert (Htools : dict_values (tools (register_all ts new_agent)) = ts).
  { rewrite register_all_distinct; auto. simpl.
    unfold dict_values. rewrite map_map. simpl. apply map_id. }
  split.
  - unfold get_available_tools. now rewrite Htools.
  - unfold tools_json. cbn [py_getitem dict_get String.eqb Ascii.eqb
                            Bool.eqb].
    now rewrite Htools.
Qed.

End RegistryInvariants.

(** ** More on the tool-using executor *)

Section ToolUseMore.
Context {RT : PyRuntime} {W : World}.
Import ToolUse.

Lemma execute_plan_direct (self : Agent) (d : list (string * pyval))
  (flag : pyval) (tr : trace) :
  dict_get "requires_tools" d = Some flag ->
  truthy flag = false ->
  execute_plan self (PyDict d) tr
  = (py_getitem (PyDict d) "direct_response", tr).
Proof.
  intros Hflag Hfalse.
  unfold execute_plan, bind, lift, py_get, py_get_method.
  rewrite Hflag, Hfalse. reflexivity.
Qed.

(** X4. When the plan's flag is false, [execute] hands back the plan's
    ["direct_response"] as it is and does nothing but the one model
    request, whatever tool calls the plan may also carry; when the key is
    missing, the [KeyError] comes back as the error string. *)
Theorem direct_response_verbatim (self : Agent) (q : string) (tr : trace)
  (reply : string) (d : list (string * pyval)) (flag : pyval) :
  llm tr (plan_request self q) = inr reply ->
  json_loads reply = inr (PyDict d) ->
  dict_get "requires_tools" d = Some flag ->
  truthy flag = false ->
  execute self q tr
  = (inr (match dict_get "direct_response" d with
          | Some response => response
          | None =>
              PyStr ("Error executing plan: "
                     ++ fault_text (MissingKey "direct_response"))
          end),
     (tr ++ [EvChat (plan_request self q)])%list).
Proof.
  intros Hllm Hjson Hflag Hfalse.
  unfold execute, try_except.
  rewrite (execute_body_planned _ _ _ _ _ Hllm Hjson).
  rewrite (execute_plan_direct _ _ _ _ Hflag Hfalse).
  simpl py_getitem.
  destruct (dict_get "direct_response" d); reflexivity.
Qed.

(** The loop over a list of calls whose first part runs to the end. *)
Lemma run_tool_calls_app (self : Agent) (pre : list pyval)
  (tr tr1 : trace) (rs : list string) :
  calls_run self pre tr rs tr1 ->
  forall rest acc,
    run_tool_calls self (pre ++ rest)%list acc tr
    = run_tool_calls self rest (acc ++ rs)%list tr1.
Proof.
  induction 1 as [tr|call pre' n args T r rs tr tr1 tr2
                    Htool Hargs Hself Hname Hget Hfunc _ IH];
    intros rest acc.
  - simpl. now rewrite app_nil_r.
  - simpl app. simpl run_tool_calls. unfold bind at 1, lift at 1.
    rewrite Htool.
    unfold bind at 1, lift at 1. rewrite Hargs.
    unfold bind at 1, lift at 1, bind_use_tool_kwargs.
    simpl py_kwargs. cbv iota beta. rewrite Hself, Hname.
    simpl orb. cbv iota beta.
    unfold bind at 1, use_tool. rewrite Hget.
    unfold bind at 1, emit. rewrite Hfunc.
    rewrite IH. now rewrite <- app_assoc.
Qed.

(** X5. A tool that raises stops the plan: the calls before it have
    run, the calls after it never run (the world is left as the failing
    tool left it), the results collected so far are dropped, and
    [execute] returns the error string of that exception. *)
Theorem failing_tool_aborts_plan (self : Agent) (q : string) (tr : trace)
  (reply : string) (d : list (string * pyval)) (flag call : pyval)
  (pre post : list pyval) (n : string) (args : list (string * pyval))
  (T : Tool) (rs : list string) (tr1 tr2 : trace) (e : exn) :
  llm tr (plan_request self q) = inr reply ->
  json_loads reply = inr (PyDict d) ->
  dict_get "requires_tools" d = Some flag ->
  truthy flag = true ->
  dict_get "tool_calls" d = Some (PyList (pre ++ call :: post)%list) ->
  calls_run self pre (tr ++ [EvChat (plan_request self q)])%list rs tr1 ->
  py_getitem call "tool" = inr (PyStr n) ->
  py_getitem call "args" = inr (PyDict args) ->
  dict_mem "self" args = false ->
  dict_mem "tool_name" args = false ->
  dict_get n (tools self) = Some T ->
  func T args (tr1 ++ [EvTool n args])%list = (inl e, tr2) ->
  execute self q tr
  = (inr (PyStr ("Error executing plan: " ++ str_exn e)), tr2).
Proof.
  intros Hllm Hjson Hflag Htrue Hcalls Hrun Htool Hargs Hself Hname Hget
    Hfunc.
  unfold execute. erewrite try_except_raise; [reflexivity|].
  rewrite (execute_body_planned _ _ _ _ _ Hllm Hjson).
  rewrite (execute_plan_with_tools _ _ _ _ Hflag Htrue).
  unfold execute_tools.
  unfold bind at 1, lift at 1. simpl py_getitem. rewrite Hcalls.
  unfold bind at 1, lift at 1. simpl py_iter. cbv iota beta.
  unfold bind at 1. rewrite (run_tool_calls_app _ _ _ _ _ Hrun).
  simpl run_tool_calls. unfold bind at 1, lift at 1. rewrite Htool.
  unfold bind at 1, lift at 1. rewrite Hargs.
  unfold bind at 1, lift at 1, bind_use_tool_kwargs.
  simpl py_kwargs. cbv iota beta. rewrite Hself, Hname.
  simpl orb. cbv iota beta.
  unfold bind at 1, use_tool. rewrite Hget.
  unfold bind at 1, emit. rewrite Hfunc. reflexivity.
Qed.

(** X6. Arguments named like [use_tool]'s own parameters cannot be
    forwarded: a call whose argument mapping has the key ["self"] or
    ["tool_name"] fails at the call to [use_tool], before the registry is
    consulted and without invoking the tool, and [execute] returns the
    error string; so does a call whose ["args"] is not a mapping. *)
Theorem reserved_argument_names_rejected (self : Agent) (q : string)
  (tr : trace) (reply : string) (d : list (string * pyval))
  (flag call tool_name tool_args : pyval) (rest : list pyval) :
  llm tr (plan_request self q) = inr reply ->
  json_loads reply = inr (PyDict d) ->
  dict_get "requires_tools" d = Some flag ->
  truthy flag = true ->
  dict_get "tool_calls" d = Some (PyList (call :: rest)) ->
  py_getitem call "tool" = inr tool_name ->
  py_getitem call "args" = inr tool_args ->
  (forall args,
      tool_args = PyDict args ->
      orb (dict_mem "self" args) (dict_mem "tool_name" args) = true) ->
  execute self q tr
  = (inr (PyStr ("Error executing plan: "
                 ++ fault_text
                      (match tool_args with
                       | PyDict _ => BadKeywords "use_tool"
                       | _ => NotMapping (type_name tool_args)
                       end))),
     (tr ++ [EvChat (plan_request self q)])%list).
Proof.
  intros Hllm Hjson Hflag Htrue Hcalls Htool Hargs Hreserved.
  assert (Hbody :
    execute_body self q tr
    = (inl (Fault (match tool_args with
                   | PyDict _ => BadKeywords "use_tool"
                   | _ => NotMapping (type_name tool_args)
                   end)),
       (tr ++ [EvChat (plan_request self q)])%list));
    [|unfold execute; now rewrite (try_except_raise _ _ _ _ _ Hbody)].
  rewrite (execute_body_planned _ _ _ _ _ Hllm Hjson).
  rewrite (execute_plan_with_tools _ _ _ _ Hflag Htrue).
  unfold execute_tools.
  unfold bind at 1, lift at 1. simpl py_getitem. rewrite Hcalls.
  unfold bind at 1, lift at 1. simpl py_iter. cbv iota beta.
  unfold bind at 1.
  simpl run_tool_calls. unfold bind at 1, lift at 1. rewrite Htool.
  unfold bind at 1, lift at 1. rewrite Hargs.
  unfold bind at 1, lift at 1, bind_use_tool_kwargs.
  destruct tool_args; try reflexivity.
  simpl py_kwargs. cbv iota beta. now rewrite (Hreserved d0 eq_refl).
Qed.

End ToolUseMore.

(** ** More on the currency tool *)

Section CurrencyMore.
Context {RT : PyRuntime} {W : World}.
Import ToolUse.

(** X7. A rate that is present but falsy (zero, for one) counts as
    missing: the tool answers "No rate found" for the currency as the
    caller wrote it. *)
Theorem falsy_rate_is_missing (amount : pyval) (f t : string) (tr : trace)
  (body : string) (d rates : list (string * pyval)) (rate : pyval) :
  urlopen_read tr (rates_url (str_upper f)) = inr body ->
  json_loads body = inr (PyDict d) ->
  dict_get "rates" d = Some (PyDict rates) ->
  dict_get (str_upper t) rates = Some rate ->
  truthy rate = false ->
  convert_currency amount (PyStr f) (PyStr t) tr
  = (inr ("Error: No rate found for " ++ t),
     (tr ++ [EvUrlOpen (rates_url (str_upper f))])%list).
Proof.
  intros Hnet Hjson Hrates Hrate Hfalse.
  unfold convert_currency, convert_currency_body, try_except, bind, lift,
    http_get.
  simpl py_upper. cbv iota beta. rewrite Hnet, Hjson. unfold ret at 1.
  simpl py_contains. rewrite (dict_mem_get _ _ _ Hrates).
  cbn. rewrite Hrates. cbn. rewrite Hrate, Hfalse. reflexivity.
Qed.

(** X8. The tool talks to the network at most once: with a source
    currency that is not a string it makes no request at all, and with a
    string it makes exactly one GET for the upper-cased code, whatever
    the reply and whatever goes wrong afterwards. *)
Theorem convert_currency_requests (amount from_currency to_currency : pyval)
  (tr : trace) :
  snd (convert_currency amount from_currency to_currency tr)
  = match from_currency with
    | PyStr f => (tr ++ [EvUrlOpen (rates_url (str_upper f))])%list
    | _ => tr
    end.
Proof.
  unfold convert_currency, convert_currency_body, try_except, bind, lift,
    http_get, ret, raise.
  destruct from_currency; try reflexivity.
  repeat (cbn;
          match goal with
          | |- context [match ?x with _ => _ end] =>
              match type of x with
              | (_ + _)%type => destruct x
              | bool => destruct x
              end
          end);
    reflexivity.
Qed.

(** The outcome once the destination rate is found. *)
Lemma convert_currency_found (amount : pyval) (f t : string) (tr : trace)
  (body : string) (d rates : list (string * pyval)) (rate : pyval) :
  urlopen_read tr (rates_url (str_upper f)) = inr body ->
  json_loads body = inr (PyDict d) ->
  dict_get "rates" d = Some (PyDict rates) ->
  dict_get (str_upper t) rates = Some rate ->
  truthy rate = true ->
  convert_currency amount (PyStr f) (PyStr t) tr
  = (inr (match py_mul amount rate with
          | inl e => "Error converting currency: " ++ str_exn e
          | inr converted =>
              match py_format_2f converted with
              | inl e => "Error converting currency: " ++ str_exn e
              | inr shown =>
                  py_str amount ++ " " ++ str_upper f ++ " = " ++ shown
                  ++ " " ++ str_upper t
              end
          end),
     (tr ++ [EvUrlOpen (rates_url (str_upper f))])%list).
Proof.
  intros Hnet Hjson Hrates Hrate Htrue.
  unfold convert_currency, convert_currency_body, try_except, bind, lift,
    http_get.
  simpl py_upper. cbv iota beta. rewrite Hnet, Hjson. unfold ret at 1.
  simpl py_contains. rewrite (dict_mem_get _ _ _ Hrates).
  cbn. rewrite Hrates. cbn. rewrite Hrate, Htrue. cbn.
  destruct (py_mul amount rate) as [e|converted]; [reflexivity|].
  destruct (py_format_2f converted); reflexivity.
Qed.

Lemma upper_char_ascii (c : ascii) :
  is_ascii_char c = true -> is_ascii_char (upper_char c) = true.
Proof.
  destruct c as [[] [] [] [] [] [] [] []]; vm_compute; auto.
Qed.

Lemma upper_char_idempotent (c : ascii) :
  upper_char (upper_char c) = upper_char c.
Proof.
  destruct c as [[] [] [] [] [] [] [] []]; reflexivity.
Qed.

Lemma str_upper_idempotent (s : string) :
  all_chars is_ascii_char s = true ->
  str_upper (str_upper s) = str_upper s.
Proof.
  intros Hascii. unfold str_upper. rewrite Hascii.
  assert (Hup : all_chars is_ascii_char (map_chars upper_char s) = true).
  { induction s as [|c s IH]; simpl in *; auto.
    apply andb_true_iff in Hascii as [Hc Hs].
    now rewrite (upper_char_ascii _ Hc), IH. }
  rewrite Hup. clear Hup Hascii.
  induction s as [|c s IH]; simpl; auto.
  now rewrite upper_char_idempotent, IH.
Qed.

(** X9. Currency codes are case-insensitive: for ASCII codes whose
    destination rate is found, converting with the codes as written gives
    the same outcome, on the same request, as converting with the codes
    upper-cased. *)
Theorem currency_codes_case_insensitive (amount : pyval) (f t : string)
  (tr : trace) (body : string) (d rates : list (string * pyval))
  (rate : pyval) :
  all_chars is_ascii_char f = true ->
  all_chars is_ascii_char t = true ->
  urlopen_read tr (rates_url (str_upper f)) = inr body ->
  json_loads body = inr (PyDict d) ->
  dict_get "rates" d = Some (PyDict rates) ->
  dict_get (str_upper t) rates = Some rate ->
  truthy rate = true ->
  convert_currency amount (PyStr f) (PyStr t) tr
  = convert_currency amount (PyStr (str_upper f)) (PyStr (str_upper t)) tr.
Proof.
  intros Hf Ht Hnet Hjson Hrates Hrate Htrue.
  rewrite (convert_currency_found amount f t tr body d rates rate); auto.
  rewrite (convert_currency_found amount (str_upper f) (str_upper t) tr
             body d rates rate);
    rewrite ?(str_upper_idempotent _ Hf), ?(str_upper_idempotent _ Ht);
    auto.
Qed.

(** X10. An amount given as a string never converts: even when the rate
    is found, the product is a repeated string or a type error, neither of
    which the two-decimal format accepts, so the tool answers with its
    "Error converting currency" string. *)
Theorem string_amount_is_an_error (a f t : string) (tr : trace)
  (body : string) (d rates : list (string * pyval)) (rate : pyval) :
  urlopen_read tr (rates_url (str_upper f)) = inr body ->
  json_loads body = inr (PyDict d) ->
  dict_get "rates" d = Some (PyDict rates) ->
  dict_get (str_upper t) rates = Some rate ->
  truthy rate = true ->
  exists fault,
    convert_currency (PyStr a) (PyStr f) (PyStr t) tr
    = (inr ("Error converting currency: " ++ fault_text fault),
       (tr ++ [EvUrlOpen (rates_url (str_upper f))])%list)
    /\ (fault = BadFormat "str"
        \/ fault = BadOperands "str" (type_name rate)).
Proof.
  intros Hnet Hjson Hrates Hrate Htrue.
  rewrite (convert_currency_found (PyStr a) f t tr body d rates rate); auto.
  destruct rate; cbn; eauto.
Qed.

End CurrencyMore.

(** * Concrete runs

    Each statement above that has premises is applied here to a scripted
    world, with every premise checked by evaluating the definitions. *)


Lemma execute_catches_everything_run :
  (@ToolUse.execute (Stub.runtime []) Stub.garbled_world
     ToolUse.new_agent "Hello" []
   = (inr (PyStr "Error executing plan: Failed to parse LLM response as JSON"),
      [] ++ [EvChat (@ToolUse.plan_request (Stub.runtime [])
                       ToolUse.new_agent "Hello")])%list)
  /\
  (starts_with "Error executing plan:"
     ("Error executing plan: "
      ++ @str_exn (Stub.runtime [])
           (ValueError "Failed to parse LLM response as JSON")))
  /\
  (exists s,
      @ToolUse.execute Stub.conversion_runtime Stub.conversion_world
        ToolUse.new_agent "Convert 100 USD to EUR" []
      = (inr (PyStr s),
         [] ++ [EvChat (@ToolUse.plan_request Stub.conversion_runtime
                          ToolUse.new_agent "Convert 100 USD to EUR")])%list
      /\ starts_with
           "Error executing plan: Tool 'convert_currency' not found." s).
Proof.
  destruct (@execute_catches_everything (Stub.runtime []) Stub.garbled_world
              ToolUse.new_agent "Hello" [])
    as [_ [Hraised [Hparse _]]].
  destruct (@execute_catches_everything Stub.conversion_runtime
              Stub.conversion_world ToolUse.new_agent
              "Convert 100 USD to EUR" [])
    as [_ [_ [_ Hmissing]]].
  split; [|split].
  - apply (Hparse "Sorry, I cannot help with that."
             "Expecting value: line 1 column 1 (char 0)");
      reflexivity.
  - apply (Hraised (ValueError "Failed to parse LLM response as JSON")
             ([] ++ [EvChat (@ToolUse.plan_request (Stub.runtime [])
                               ToolUse.new_agent "Hello")])%list).
    reflexivity.
  - eapply (Hmissing (Stub.encode (conversion_plan "..." ["..."])))
      with (flag := PyBool true) (rest := []) (n := "convert_currency")
           (args := Stub.conversion_args);
      reflexivity.
Defined.

Lemma execute_runs_tool_calls_in_order_run :
  (@ToolUse.execute Stub.shouting_runtime Stub.shouting_world
     (ToolUse.register_all [Stub.shout] ToolUse.new_agent) "Shout twice" []
   = (inr (PyStr ("Thought: " ++ @py_str Stub.shouting_runtime (PyStr "...")
                  ++ nl ++ "Plan: " ++ String.concat ". " ["..."] ++ nl ++
                  "Results: " ++ String.concat ". " ["HI"; "HO"])),
      [EvChat (@ToolUse.plan_request Stub.shouting_runtime
                 (ToolUse.register_all [Stub.shout] ToolUse.new_agent)
                 "Shout twice");
       EvTool "shout" [("text", PyStr "hi")];
       EvTool "shout" [("text", PyStr "ho")]]))
  /\
  (exists out tr',
      @ToolUse.execute Stub.conversion_runtime Stub.conversion_world
        (ToolUse.add_tool ToolUse.new_agent
           (@ToolUse.convert_currency_tool Stub.conversion_runtime
              Stub.conversion_world))
        "Convert 100 USD to EUR" []
      = (inr (PyStr out), tr')
      /\ out = "Thought: " ++ "..." ++ nl ++
               "Plan: " ++ String.concat ". " ["..."] ++ nl ++
               "Results: 100 USD = 90.00 EUR"
      /\ occurs_in "100 USD = 90.00 EUR" out).
Proof.
  split.
  - destruct (@execute_runs_tool_calls_in_order
                Stub.shouting_runtime Stub.shouting_world
                "Shout twice" []) as [Hgeneral _].
    eapply (Hgeneral (ToolUse.register_all [Stub.shout] ToolUse.new_agent)
              (Stub.encode Stub.shouting_plan) _ (PyBool true)
              _ (PyStr "...") ["..."] ["HI"; "HO"]);
      try reflexivity.
    eapply calls_run_cons with (T := Stub.shout); try reflexivity.
    eapply calls_run_cons with (T := Stub.shout); try reflexivity.
    apply calls_run_nil.
  - destruct (@execute_runs_tool_calls_in_order Stub.conversion_runtime
                Stub.conversion_world "Convert 100 USD to EUR" [])
      as [_ Hscenario].
    apply (Hscenario (Stub.encode (conversion_plan "..." ["..."]))
             "..." ["..."] (Stub.encode Stub.rate_table)
             [("rates", PyDict [("EUR", PyFloat nine_tenths)])]);
      reflexivity.
Defined.

Lemma convert_currency_never_raises_run :
  (@ToolUse.convert_currency Stub.conversion_runtime Stub.conversion_world
     (PyInt 100) (PyInt 5) (PyStr "EUR") []
   = (inr ("Error converting currency: "
           ++ @str_exn Stub.conversion_runtime
                (Fault (NoAttribute "int" "upper"))),
      []))
  /\
  (@ToolUse.convert_currency Stub.conversion_runtime Stub.conversion_world
     (PyInt 100) (PyStr "gbp") (PyStr "EUR") []
   = (inr "Error converting currency: HTTP Error 404: Not Found",
      [EvUrlOpen "https://open.er-api.com/v6/latest/GBP"]))
  /\
  (@ToolUse.convert_currency (Stub.runtime []) Stub.garbled_world
     (PyInt 100) (PyStr "usd") (PyStr "EUR") []
   = (inr "Error converting currency: Expecting value: line 1 column 1 (char 0)",
      [EvUrlOpen "https://open.er-api.com/v6/latest/USD"]))
  /\
  (@ToolUse.convert_currency Stub.no_rates_runtime Stub.no_rates_world
     (PyInt 100) (PyStr "usd") (PyStr "EUR") []
   = (inr "Error: Could not fetch exchange rates",
      [EvUrlOpen "https://open.er-api.com/v6/latest/USD"]))
  /\
  (@ToolUse.convert_currency Stub.conversion_runtime Stub.conversion_world
     (PyInt 100) (PyStr "usd") (PyStr "jpy") []
   = (inr "Error: No rate found for jpy",
      [EvUrlOpen "https://open.er-api.com/v6/latest/USD"]))
  /\
  (@ToolUse.convert_currency Stub.conversion_runtime Stub.conversion_world
     (PyInt 100) (PyStr "usd") (PyStr "eur") []
   = (inr "100 USD = 90.00 EUR",
      [EvUrlOpen "https://open.er-api.com/v6/latest/USD"])
   /\ exists x, "90.00" = format_2f x
                /\ (is_finite x = true -> two_decimals "90.00")).
Proof.
  split; [|split; [|split; [|split; [|split]]]].
  - destruct (@convert_currency_never_raises Stub.conversion_runtime
                Stub.conversion_world (PyInt 100) (PyInt 5) (PyStr "EUR") [])
      as [_ [Hraised _]].
    apply (Hraised (Fault (NoAttribute "int" "upper")) []). reflexivity.
  - destruct (@convert_currency_never_raises Stub.conversion_runtime
                Stub.conversion_world (PyInt 100) (PyStr "gbp") (PyStr "EUR")
                [])
      as [_ [_ [Hnetwork _]]].
    apply (Hnetwork "gbp" (External "HTTPError" "HTTP Error 404: Not Found"));
      reflexivity.
  - destruct (@convert_currency_never_raises (Stub.runtime [])
                Stub.garbled_world (PyInt 100) (PyStr "usd") (PyStr "EUR") [])
      as [_ [_ [_ [Hjson _]]]].
    apply (Hjson "usd" "<html>Bad Gateway</html>"
             "Expecting value: line 1 column 1 (char 0)");
      reflexivity.
  - destruct (@convert_currency_never_raises Stub.no_rates_runtime
                Stub.no_rates_world (PyInt 100) (PyStr "usd") (PyStr "EUR") [])
      as [_ [_ [_ [_ [Hnorates _]]]]].
    apply (Hnorates "usd" (Stub.encode Stub.no_rates_reply)
             Stub.no_rates_reply);
      reflexivity.
  - destruct (@convert_currency_never_raises Stub.conversion_runtime
                Stub.conversion_world (PyInt 100) (PyStr "usd") (PyStr "jpy")
                [])
      as [_ [_ [_ [_ [_ [Hnorate _]]]]]].
    apply (Hnorate "usd" "jpy" (Stub.encode Stub.rate_table)
             [("rates", PyDict [("EUR", PyFloat nine_tenths)])]
             [("EUR", PyFloat nine_tenths)]);
      reflexivity.
  - destruct (@convert_currency_never_raises Stub.conversion_runtime
                Stub.conversion_world (PyInt 100) (PyStr "usd") (PyStr "eur")
                [])
      as [_ [_ [_ [_ [_ [_ Hconverted]]]]]].
    apply (Hconverted "usd" "eur" (Stub.encode Stub.rate_table)
             [("rates", PyDict [("EUR", PyFloat nine_tenths)])]
             [("EUR", PyFloat nine_tenths)] (PyFloat nine_tenths)
             (PyFloat (float_mul (float_of_Z 100) nine_tenths)) "90.00");
      reflexivity.
Defined.

Lemma revision_fallback_run :
  exists v s',
    @Reflection.execute Stub.reflection_runtime Stub.fallback_world
      "Convert 100 USD to EUR" Stub.fresh = (inr v, s')
    /\ Reflection.history s'
       = @after_revision Stub.reflection_runtime Stub.fallback_world
           Stub.fresh "Convert 100 USD to EUR" Stub.two_step_plan
           (PyDict Stub.critical_reflection)
    /\ Reflection.interactions (Reflection.self s')
       = (Reflection.interactions (Reflection.self Stub.fresh)
          ++ [Interaction.Make
                (@now Stub.fallback_world
                   (@after_plan Stub.reflection_runtime Stub.fresh
                      "Convert 100 USD to EUR"))
                "Convert 100 USD to EUR"
                (Reflection.stored_plan Stub.two_step_plan
                   (PyDict Stub.critical_reflection) Stub.two_step_plan)])%list
    /\ py_getitem
         (Reflection.stored_plan Stub.two_step_plan
            (PyDict Stub.critical_reflection) Stub.two_step_plan)
         "final_plan" = inr Stub.two_step_plan
    /\ (forall d tools_flag thought steps,
           Stub.two_step_plan = PyDict d ->
           dict_get "requires_tools" d = Some tools_flag ->
           truthy tools_flag = true ->
           dict_get "thought" d = Some thought ->
           dict_get "plan" d = Some (strs steps) ->
           exists out,
             v = PyStr out
             /\ forall step, In step steps -> occurs_in step out).
Proof.
  apply (@revision_fallback Stub.reflection_runtime Stub.fallback_world
           "Convert 100 USD to EUR" Stub.fresh
           (Stub.encode Stub.two_step_plan)
           (Stub.encode (PyDict Stub.critical_reflection))
           "I would rather not revise."
           "Expecting value: line 1 column 1 (char 0)"
           Stub.two_step_plan (PyBool true) Stub.critical_reflection);
    reflexivity.
Defined.

Lemma reflect_on_empty_memory_run :
  @Reflection.reflect_on_plan Stub.reflection_runtime Stub.fallback_world
    Stub.fresh
  = (inr Reflection.no_plan_to_reflect_on, Stub.fresh)
  /\ py_getitem Reflection.no_plan_to_reflect_on "requires_changes"
     = inr (PyBool false)
  /\ py_getitem Reflection.no_plan_to_reflect_on "reflection"
     = inr (PyStr "No plan to reflect on")
  /\ Reflection.history
       (snd (@Reflection.reflect_on_plan Stub.reflection_runtime
               Stub.fallback_world Stub.fresh))
     = Reflection.history Stub.fresh.
Proof.
  apply (@reflect_on_empty_memory Stub.reflection_runtime Stub.fallback_world
           Stub.fresh).
  reflexivity.
Defined.

Lemma unparsable_reflection_degrades_run :
  (@Reflection.reflect_on_plan Stub.reflection_runtime Stub.musing_world
     Stub.experienced
   = (inr (PyDict [("reflection", PyStr "Looks fine to me.")]),
      with_history Stub.experienced
        (Reflection.history Stub.experienced
         ++ [EvChat (@Reflection.reflect_request Stub.reflection_runtime
                       (Reflection.self Stub.experienced)
                       Stub.remembered)])%list)
   /\ dict_get "requires_changes"
        [("reflection", PyStr "Looks fine to me.")] = None
   /\ py_get (PyDict [("reflection", PyStr "Looks fine to me.")])
        "requires_changes" (PyBool false) = inr (PyBool false))
  /\
  (exists v s',
      @Reflection.execute Stub.reflection_runtime Stub.rambling_world
        "Convert 100 USD to EUR" Stub.fresh = (inr v, s')
      /\ Reflection.history s'
         = @after_reflect Stub.reflection_runtime Stub.rambling_world
             Stub.fresh "Convert 100 USD to EUR" Stub.two_step_plan
      /\ Reflection.interactions (Reflection.self s')
         = (Reflection.interactions (Reflection.self Stub.fresh)
            ++ [Interaction.Make
                  (@now Stub.rambling_world
                     (@after_plan Stub.reflection_runtime Stub.fresh
                        "Convert 100 USD to EUR"))
                  "Convert 100 USD to EUR"
                  (Reflection.stored_plan Stub.two_step_plan
                     (PyDict [("reflection", PyStr "Looks fine to me.")])
                     Stub.two_step_plan)])%list).
Proof.
  split.
  - apply (proj1 (@unparsable_reflection_degrades Stub.reflection_runtime
                    Stub.musing_world)
             Stub.experienced Stub.remembered "Looks fine to me."
             "Expecting value: line 1 column 1 (char 0)");
      reflexivity.
  - apply (proj2 (@unparsable_reflection_degrades Stub.reflection_runtime
                    Stub.rambling_world)
             "Convert 100 USD to EUR" Stub.fresh
             (Stub.encode Stub.two_step_plan) Stub.two_step_plan
             "Looks fine to me."
             "Expecting value: line 1 column 1 (char 0)");
      reflexivity.
Defined.

